(** * alerta-telegram: the Telegram notification plugin of Alerta

    A shallow embedding of [src/alerta_telegram.py] and the properties of
    its [post_receive] hook: which alerts are filtered out, what is handed
    to [telepot]'s [sendMessage], and how failures surface to the host.
    The import of the settings, the proxy set-up and the constructor of the
    plugin follow, with their own properties.

    The two libraries the plugin calls -- the [jinja2] template and the
    [telepot] bot -- are outside the repository.  They appear here as
    objects with one method each ([render], [sendMessage]) whose outcome is
    either a value or a raised exception; every theorem holds for all such
    objects. *)

From Stdlib Require Import ZArith.
From stdpp Require Import base strings list gmap.


(** ** Python values *)

(** Scalars that travel through the plugin untouched: chat ids (an [int] or
    a [str], [None] when not configured) and the leaves of JSON payloads. *)
Inductive value :=
| VNone
| VBool (b : bool)
| VInt (n : Z)
| VStr (s : string).

(** A parsed JSON object, as [telepot] returns and attaches to its errors. *)
Abbreviation json := (gmap string value).

(** A setting that holds a collection of severities.  It comes from
    [app.config.get(..) or os.environ.get(..)]: [None] when absent, a list
    when set in the Alerta configuration, a [str] when set in the
    environment. *)
Inductive severities :=
| SevNone
| SevList (l : list string)
| SevStr (s : string).

(** [x in s] for two [str]: [x] occurs in [s] as a substring. *)
Fixpoint substring_of (x s : string) : bool :=
  String.prefix x s ||
  match s with
  | EmptyString => false
  | String _ s' => substring_of x s'
  end.

(** Truth value of a setting in an [if]: [None], [[]] and [''] are false. *)
Definition truthy (c : severities) : bool :=
  match c with
  | SevNone => false
  | SevList l => negb (bool_decide (l = []))
  | SevStr s => negb (bool_decide (s = ""))
  end.

(** [x in c].  The plugin evaluates it only under [if c:], so the [None]
    case (a [TypeError] in Python) is never reached. *)
Definition py_in (x : string) (c : severities) : bool :=
  match c with
  | SevNone => false
  | SevList l => bool_decide (x ∈ l)
  | SevStr s => substring_of x s
  end.

(** Truth value of an optional [str] setting. *)
Definition truthy_str (o : option string) : bool :=
  match o with
  | None => false
  | Some s => negb (bool_decide (s = ""))
  end.

(** ** Exceptions *)

(** The exceptions that can be in flight inside [post_receive].  All of them
    derive from [Exception].  [TelegramError] stands for
    [telepot.exception.TelegramError] and its subclasses, which share the
    three attributes; [OtherException] is any class not named here.
    [RuntimeError] keeps its constructor arguments as Python does
    ([e.args]): the plugin passes the format string and the values
    separately and does not apply [%]. *)
Inductive exn :=
| UndefinedError (msg : string)
| TelegramError (error_code : Z) (description : string) (payload : json)
| TypeError (msg : string)
| KeyError (key : string)
| OtherException (cls msg : string)
| RuntimeError (args : list pyobj)
with pyobj :=
| OStr (s : string)
| OInt (n : Z)
| OJson (j : json)
| OExn (e : exn).

(** Outcome of a call into a library. *)
Inductive result (A : Type) :=
| Returns (a : A)
| Raises (e : exn).
Arguments Returns {A} a.
Arguments Raises {A} e.

(** ** The alert and the settings *)

(** The attributes of Alerta's [Alert] that the plugin and its default
    template read. *)
Record Alert := {
  id : string;
  resource : string;
  event : string;
  environment : string;
  severity : string;
  status : string;
  previous_severity : string;
  customer : option string;
  text : string;
  repeat : bool
}.

(** The module-level settings, read once at import time (lines 26-48). *)
Record Settings := {
  TELEGRAM_CHAT_ID : value;
  TELEGRAM_WEBHOOK_URL : option string;
  TELEGRAM_SOUND_NOTIFICATION_SEVERITY : severities;
  TELEGRAM_FILTER_NOTIFICATION_SEVERITY : severities;
  TELEGRAM_CHAT_ID_PER_CUSTOMER : option (gmap string value)
}.

(** ** The collaborators *)

(** One button of the inline keyboard. *)
Record button := { btn_text : string; callback_data : string }.

(** [{'inline_keyboard': rows}]. *)
Record keyboard := { inline_keyboard : list (list button) }.

(** The arguments of one [bot.sendMessage] call. *)
Record Message := {
  chat_id : value;
  msg_text : string;
  parse_mode : string;
  disable_notification : bool;
  reply_markup : option keyboard
}.

(** A compiled [jinja2.Template]: [render] takes the alert's attribute
    dictionary, here the alert itself. *)
Record Template := { render : Alert → result string }.

(** A [telepot.Bot]. *)
Record Bot := { sendMessage : Message → result json }.

(** [self] of the plugin, as [__init__] leaves it. *)
Record TelegramBot := { bot : Bot; template : Template }.

(** ** Control flow of the hook *)

(** A call that leaves the plugin: [self.template.render(alert.__dict__)]
    or [self.bot.sendMessage(..)].  A plugin has one template and one bot,
    so the call is identified by its arguments. *)
Inductive call :=
| template_render (fields : Alert)
| bot_sendMessage (m : Message).

(** How a block of statements ends: it runs through with a value, executes
    [return], or raises. *)
Inductive ending (A : Type) :=
| Value (a : A)
| Return
| Raise (e : exn).
Arguments Value {A} a.
Arguments Return {A}.
Arguments Raise {A} e.

(** A block: the calls it made, in order, and how it ended. *)
Definition M (A : Type) : Type := list call * ending A.

Definition calls {A} (m : M A) : list call := m.1.
Definition outcome {A} (m : M A) : ending A := m.2.

(** The block monad: [mret] is a finished expression, [≫=] sequencing.  A
    [return] or a raised exception skips what follows. *)
#[global] Instance M_ret : MRet M := λ A a, ([], Value a).

#[global] Instance M_bind : MBind M := λ A B k m,
  match m with
  | (cs, Value a) => let '(cs', r) := k a in (cs ++ cs', r)
  | (cs, Return) => (cs, Return)
  | (cs, Raise e) => (cs, Raise e)
  end.

Definition return_ {A} : M A := ([], Return).
Definition raise {A} (e : exn) : M A := ([], Raise e).

(** [try: m  except .. as e: h e].  [h] re-raises what no clause matches. *)
Definition try_except {A} (m : M A) (h : exn → M A) : M A :=
  match m with
  | (cs, Raise e) => let '(cs', r) := h e in (cs ++ cs', r)
  | _ => m
  end.

(** [if c: body] followed by the rest of the block. *)
Definition when (c : bool) (body : M unit) : M unit :=
  if c then body else mret tt.

(** A call into a library: recorded, then its outcome takes effect. *)
Definition invoke {A} (c : call) (r : result A) : M A :=
  match r with
  | Returns a => ([c], Value a)
  | Raises e => ([c], Raise e)
  end.

(** ** The hook *)

(** [customer in TELEGRAM_CHAT_ID_PER_CUSTOMER] (line 155).  The setting is
    [None] unless configured, and [in] on [None] raises [TypeError]; on a
    dict, [None] is no key. *)
Definition contains_key (d : option (gmap string value)) (k : option string)
  : M bool :=
  match d with
  | None => raise (TypeError "argument of type 'NoneType' is not iterable")
  | Some m =>
      mret (match k with
            | Some c => bool_decide (is_Some (m !! c))
            | None => false
            end)
  end.

(** [TELEGRAM_CHAT_ID_PER_CUSTOMER[customer]] (line 156). *)
Definition getitem (d : option (gmap string value)) (k : option string)
  : M value :=
  match d, k with
  | Some m, Some c =>
      match m !! c with
      | Some v => mret v
      | None => raise (KeyError c)
      end
  | Some _, None => raise (KeyError "None")
  | None, _ => raise (TypeError "'NoneType' object is not subscriptable")
  end.

(** The text sent when the template cannot be rendered (lines 126-127). *)
Definition fallback_text : string :=
  "Something bad has happened but also we " +:+
  "can't handle your telegram template message.".

Definition post_receive (cfg : Settings) (self : TelegramBot) (alert : Alert)
  : M unit :=
  when (repeat alert) return_ ;;
  (* Do not send notifications about new (previous severity ==
     indeterminate) immediately closed alerts *)
  when (bool_decide (status alert = "closed") &&
        bool_decide (previous_severity alert = "indeterminate")) return_ ;;
  (* If filter set - send only needed severities *)
  when (truthy (TELEGRAM_FILTER_NOTIFICATION_SEVERITY cfg)) (
    (* By default do not send *)
    let send_alert := false in
    let send_alert :=
      if bool_decide (status alert = "closed") then
        if py_in (previous_severity alert)
                 (TELEGRAM_FILTER_NOTIFICATION_SEVERITY cfg)
        then true else send_alert
      else
        let send_alert :=
          if py_in (previous_severity alert)
                   (TELEGRAM_FILTER_NOTIFICATION_SEVERITY cfg)
          then true else send_alert in
        if py_in (severity alert) (TELEGRAM_FILTER_NOTIFICATION_SEVERITY cfg)
        then true else send_alert in
    when (negb send_alert) return_) ;;
  text ← try_except
    (invoke (template_render alert)
            (render (template self) alert))
    (λ e, match e with
          | UndefinedError _ => mret fallback_text
          | _ => raise e
          end) ;
  let keyboard :=
    if truthy_str (TELEGRAM_WEBHOOK_URL cfg) then
      Some {| inline_keyboard := [[
        {| btn_text := "ack"; callback_data := "/ack " +:+ id alert |};
        {| btn_text := "close"; callback_data := "/close " +:+ id alert |};
        {| btn_text := "blackout";
           callback_data := "/blackout " +:+ id alert |} ]] |}
    else None in
  let disable_notification :=
    if truthy (TELEGRAM_SOUND_NOTIFICATION_SEVERITY cfg) then
      let disable_notification := true in
      if py_in (severity alert) (TELEGRAM_SOUND_NOTIFICATION_SEVERITY cfg)
      then false else disable_notification
    else false in
  response ← try_except
    (in_map ← contains_key (TELEGRAM_CHAT_ID_PER_CUSTOMER cfg)
                           (customer alert) ;
     tg_chat_id ←
       (if in_map : bool
        then getitem (TELEGRAM_CHAT_ID_PER_CUSTOMER cfg) (customer alert)
        else mret (TELEGRAM_CHAT_ID cfg)) ;
     let m := {| chat_id := tg_chat_id;
                 msg_text := text;
                 parse_mode := "Markdown";
                 disable_notification := disable_notification;
                 reply_markup := keyboard |} in
     invoke (bot_sendMessage m) (sendMessage (bot self) m))
    (λ e, match e with
          | TelegramError error_code description payload =>
              raise (RuntimeError
                       [OStr "Telegram: ERROR - %s, description= %s, json=%s";
                        OInt error_code; OStr description; OJson payload])
          | _ => raise (RuntimeError [OStr "Telegram: ERROR - %s"; OExn e])
          end) ;
  mret tt.

(** ** What a run of the hook shows to the outside *)

(** The hook got past the filter: it handed the alert to the template, the
    first thing it does for an alert it notifies about. *)
Definition notifies (r : M unit) : Prop :=
  ∃ fields, template_render fields ∈ calls r.

(** The hook called [sendMessage] with the arguments [m]. *)
Definition sends (r : M unit) (m : Message) : Prop :=
  bot_sendMessage m ∈ calls r.

(** The condition under which control gets past the three [return]
    statements of lines 85-119 and reaches line 123. *)
Definition passes_filter (cfg : Settings) (alert : Alert) : bool :=
  let F := TELEGRAM_FILTER_NOTIFICATION_SEVERITY cfg in
  negb (repeat alert) &&
  negb (bool_decide (status alert = "closed") &&
        bool_decide (previous_severity alert = "indeterminate")) &&
  (negb (truthy F) ||
   (if bool_decide (status alert = "closed")
    then py_in (previous_severity alert) F
    else py_in (previous_severity alert) F || py_in (severity alert) F)).

(** [text] is what lines 123-127 bind: the rendered text, or the fallback
    after [UndefinedError]. *)
Inductive binds_text (self : TelegramBot) (alert : Alert) : string → Prop :=
| binds_rendered t :
    render (template self) alert = Returns t → binds_text self alert t
| binds_fallback msg :
    render (template self) alert = Raises (UndefinedError msg) →
    binds_text self alert fallback_text.

(** The alert can be delivered once it passes the filter: the per-customer
    map is configured and rendering yields a text (possibly the fallback). *)
Definition deliverable (cfg : Settings) (self : TelegramBot) (alert : Alert)
  : Prop :=
  is_Some (TELEGRAM_CHAT_ID_PER_CUSTOMER cfg) ∧ ∃ t, binds_text self alert t.

(** What the two [except] clauses of lines 164-170 raise for [e]. *)
Definition delivery_error (e : exn) : exn :=
  match e with
  | TelegramError error_code description payload =>
      RuntimeError [OStr "Telegram: ERROR - %s, description= %s, json=%s";
                    OInt error_code; OStr description; OJson payload]
  | _ => RuntimeError [OStr "Telegram: ERROR - %s"; OExn e]
  end.

(** ** Sample data *)

Module Sample.

(** A template that renders the status and the severity of the alert. *)
Definition header : Template :=
  {| render a := Returns ("[" +:+ status a +:+ "] " +:+ severity a) |}.

(** A template that reads a field no alert has: rendering fails. *)
Definition broken : Template :=
  {| render _ := Raises (UndefinedError "'nosuchfield' is undefined") |}.

(** A bot whose calls succeed. *)
Definition up : Bot := {| sendMessage _ := Returns {[ "ok" := VBool true ]} |}.

(** A bot that is rate limited. *)
Definition limited : Bot :=
  {| sendMessage _ :=
       Raises (TelegramError 429 "Too Many Requests"
                 {[ "ok" := VBool false; "error_code" := VInt 429 ]}) |}.

(** A bot that cannot reach the network. *)
Definition offline : Bot :=
  {| sendMessage _ :=
       Raises (OtherException "ConnectionError" "network unreachable") |}.

Definition channels : gmap string value :=
  {[ "acme" := VInt (-1001); "globex" := VStr "@globex_alerts" ]}.

Definition plain : Settings :=
  {| TELEGRAM_CHAT_ID := VInt 42;
     TELEGRAM_WEBHOOK_URL := None;
     TELEGRAM_SOUND_NOTIFICATION_SEVERITY := SevNone;
     TELEGRAM_FILTER_NOTIFICATION_SEVERITY := SevNone;
     TELEGRAM_CHAT_ID_PER_CUSTOMER := Some channels |}.

Definition watched : Settings :=
  {| TELEGRAM_CHAT_ID := VInt 42;
     TELEGRAM_WEBHOOK_URL := Some "https://alerta.example/telegram";
     TELEGRAM_SOUND_NOTIFICATION_SEVERITY := SevList ["critical"];
     TELEGRAM_FILTER_NOTIFICATION_SEVERITY := SevList ["critical"; "major"];
     TELEGRAM_CHAT_ID_PER_CUSTOMER := Some channels |}.

Definition unmapped : Settings :=
  {| TELEGRAM_CHAT_ID := VInt 42;
     TELEGRAM_WEBHOOK_URL := None;
     TELEGRAM_SOUND_NOTIFICATION_SEVERITY := SevNone;
     TELEGRAM_FILTER_NOTIFICATION_SEVERITY := SevNone;
     TELEGRAM_CHAT_ID_PER_CUSTOMER := None |}.

Definition alert (st sev prev : string) (cust : option string)
    (rep : bool) : Alert :=
  {| id := "a1b2"; resource := "web01"; event := "node_down";
     environment := "Production"; severity := sev; status := st;
     previous_severity := prev; customer := cust;
     text := "host is down"; repeat := rep |}.

Definition opened : Alert := alert "open" "critical" "warning" (Some "acme") false.
Definition closed : Alert := alert "closed" "normal" "critical" None false.
Definition blip : Alert := alert "closed" "normal" "indeterminate" None false.
Definition again : Alert := alert "open" "critical" "critical" (Some "acme") true.

(** What the hook sends for [opened] under [watched] with the [header]
    template. *)
Definition opened_message : Message :=
  {| chat_id := VInt (-1001);
     msg_text := "[open] critical";
     parse_mode := "Markdown";
     disable_notification := false;
     reply_markup := Some {| inline_keyboard := [[
       {| btn_text := "ack"; callback_data := "/ack a1b2" |};
       {| btn_text := "close"; callback_data := "/close a1b2" |};
       {| btn_text := "blackout"; callback_data := "/blackout a1b2" |} ]] |}
  |}.

(** What the hook sends for [opened] under [plain] when the template is
    [broken]. *)
Definition fallback_message : Message :=
  {| chat_id := VInt (-1001);
     msg_text := fallback_text;
     parse_mode := "Markdown";
     disable_notification := false;
     reply_markup := None |}.

End Sample.


(** ** Module import: the settings (lines 26-48) *)

(** A value as [app.config] may hold it.  Lists hold severities and dicts
    map customers to chat ids, as the settings of this plugin do. *)
Inductive pyval :=
| PNone
| PBool (b : bool)
| PInt (n : Z)
| PStr (s : string)
| PList (l : list string)
| PDict (d : gmap string value).

(** [bool(v)]. *)
Definition py_bool (v : pyval) : bool :=
  match v with
  | PNone => false
  | PBool b => b
  | PInt n => negb (bool_decide (n = 0%Z))
  | PStr s => negb (bool_decide (s = ""))
  | PList l => negb (bool_decide (l = []))
  | PDict d => negb (bool_decide (d = ∅))
  end.

(** [a or b]. *)
Definition py_or (a b : pyval) : pyval := if py_bool a then a else b.

(** [v is None]. *)
Definition is_None (v : pyval) : bool :=
  match v with PNone => true | _ => false end.

(** [app.config.get(k, dflt)]; [dflt] is [None] where the source gives
    none. *)
Definition config_get (config : gmap string pyval) (k : string)
    (dflt : pyval) : pyval :=
  default dflt (config !! k).

(** [os.environ.get(k)]: the environment holds strings only. *)
Definition environ_get (environ : gmap string string) (k : string) : pyval :=
  from_option PStr PNone (environ !! k).

(** The module-level names of the plugin. *)
Module Py.
Record Globals := {
  TELEGRAM_TOKEN : pyval;
  TELEGRAM_CHAT_ID : pyval;
  TELEGRAM_WEBHOOK_URL : pyval;
  TELEGRAM_TEMPLATE : pyval;
  TELEGRAM_PROXY : pyval;
  TELEGRAM_PROXY_USERNAME : pyval;
  TELEGRAM_PROXY_PASSWORD : pyval;
  TELEGRAM_SOUND_NOTIFICATION_SEVERITY : pyval;
  TELEGRAM_FILTER_NOTIFICATION_SEVERITY : pyval;
  DASHBOARD_URL : pyval;
  TELEGRAM_CHAT_ID_PER_CUSTOMER : pyval
}.
End Py.

(** Lines 26-48, one assignment per field. *)
Definition load (config : gmap string pyval) (environ : gmap string string)
  : Py.Globals :=
  {| Py.TELEGRAM_TOKEN :=
       py_or (config_get config "TELEGRAM_TOKEN" PNone)
             (environ_get environ "TELEGRAM_TOKEN");
     Py.TELEGRAM_CHAT_ID :=
       py_or (config_get config "TELEGRAM_CHAT_ID" PNone)
             (environ_get environ "TELEGRAM_CHAT_ID");
     Py.TELEGRAM_WEBHOOK_URL :=
       py_or (config_get config "TELEGRAM_WEBHOOK_URL" PNone)
             (environ_get environ "TELEGRAM_WEBHOOK_URL");
     Py.TELEGRAM_TEMPLATE :=
       py_or (config_get config "TELEGRAM_TEMPLATE" PNone)
             (environ_get environ "TELEGRAM_TEMPLATE");
     Py.TELEGRAM_PROXY :=
       py_or (config_get config "TELEGRAM_PROXY" PNone)
             (environ_get environ "TELEGRAM_PROXY");
     Py.TELEGRAM_PROXY_USERNAME :=
       py_or (config_get config "TELEGRAM_PROXY_USERNAME" PNone)
             (environ_get environ "TELEGRAM_PROXY_USERNAME");
     Py.TELEGRAM_PROXY_PASSWORD :=
       py_or (config_get config "TELEGRAM_PROXY_PASSWORD" PNone)
             (environ_get environ "TELEGRAM_PROXY_PASSWORD");
     Py.TELEGRAM_SOUND_NOTIFICATION_SEVERITY :=
       py_or (config_get config "TELEGRAM_SOUND_NOTIFICATION_SEVERITY" PNone)
             (environ_get environ "TELEGRAM_SOUND_NOTIFICATION_SEVERITY");
     Py.TELEGRAM_FILTER_NOTIFICATION_SEVERITY :=
       py_or (config_get config "TELEGRAM_FILTER_NOTIFICATION_SEVERITY" PNone)
             (environ_get environ "TELEGRAM_FILTER_NOTIFICATION_SEVERITY");
     Py.DASHBOARD_URL :=
       py_or (config_get config "DASHBOARD_URL" (PStr ""))
             (environ_get environ "DASHBOARD_URL");
     Py.TELEGRAM_CHAT_ID_PER_CUSTOMER :=
       config_get config "TELEGRAM_CHAT_ID_PER_CUSTOMER" PNone |}.

(** *** The settings as the hook reads them *)

(** [post_receive] uses five of the names, each at one type: a chat id is a
    scalar, the webhook URL a [str], a severity setting a list or a [str],
    the per-customer map a dict, and any of them may be [None].  A value of
    another type has no counterpart in [Settings]. *)
Definition as_scalar (v : pyval) : option value :=
  match v with
  | PNone => Some VNone
  | PBool b => Some (VBool b)
  | PInt n => Some (VInt n)
  | PStr s => Some (VStr s)
  | _ => None
  end.

Definition as_str (v : pyval) : option (option string) :=
  match v with
  | PNone => Some None
  | PStr s => Some (Some s)
  | _ => None
  end.

Definition as_severities (v : pyval) : option severities :=
  match v with
  | PNone => Some SevNone
  | PList l => Some (SevList l)
  | PStr s => Some (SevStr s)
  | _ => None
  end.

Definition as_dict (v : pyval) : option (option (gmap string value)) :=
  match v with
  | PNone => Some None
  | PDict d => Some (Some d)
  | _ => None
  end.

Definition settings_of (g : Py.Globals) : option Settings :=
  chat ← as_scalar (Py.TELEGRAM_CHAT_ID g);
  url ← as_str (Py.TELEGRAM_WEBHOOK_URL g);
  sound ← as_severities (Py.TELEGRAM_SOUND_NOTIFICATION_SEVERITY g);
  watch ← as_severities (Py.TELEGRAM_FILTER_NOTIFICATION_SEVERITY g);
  channels ← as_dict (Py.TELEGRAM_CHAT_ID_PER_CUSTOMER g);
  Some {| TELEGRAM_CHAT_ID := chat;
          TELEGRAM_WEBHOOK_URL := url;
          TELEGRAM_SOUND_NOTIFICATION_SEVERITY := sound;
          TELEGRAM_FILTER_NOTIFICATION_SEVERITY := watch;
          TELEGRAM_CHAT_ID_PER_CUSTOMER := channels |}.

(** ** Module import: the proxy (lines 50-57) *)

(** A call of [telepot.api.set_proxy]: the URL and, when given, the pair of
    user name and password. *)
Inductive proxy_call :=
| set_proxy (url : pyval) (basic_auth : option (pyval * pyval)).

Definition setup_proxy (g : Py.Globals) : list proxy_call :=
  if forallb py_bool [Py.TELEGRAM_PROXY g; Py.TELEGRAM_PROXY_USERNAME g;
                      Py.TELEGRAM_PROXY_PASSWORD g]
  then [set_proxy (Py.TELEGRAM_PROXY g)
          (Some (Py.TELEGRAM_PROXY_USERNAME g, Py.TELEGRAM_PROXY_PASSWORD g))]
  else if negb (is_None (Py.TELEGRAM_PROXY g))
  then [set_proxy (Py.TELEGRAM_PROXY g) None]
  else [].

(** ** The plugin object (lines 59-81, 174-175) *)

(** The characters a Rocq string cannot hold literally. *)
Definition nl : string := String (Ascii.ascii_of_nat 10) "".
Definition dq : string := String (Ascii.ascii_of_nat 34) "".

(** Lines 13-22.  The backslash of the [replace] filter is no escape
    sequence in Python and stays in the text. *)
Definition DEFAULT_TMPL : string :=
  nl +:+
  "{% if customer %}Customer: `{{customer}}` {% endif %}" +:+ nl +:+
  nl +:+
  "*[{{ status.capitalize() }}] {{ environment }} " +:+
    "{{ severity.capitalize() }}*" +:+ nl +:+
  "{{ event | replace(" +:+ dq +:+ "_" +:+ dq +:+ "," +:+ dq +:+ "\_" +:+ dq +:+
    ") }} {{ resource.capitalize() }}" +:+ nl +:+
  nl +:+
  "```" +:+ nl +:+
  "{{ text }}" +:+ nl +:+
  "```" +:+ nl.

(** What the constructor reaches outside the plugin: the Telegram API behind
    the bot, the file system and the template compiler.  [getWebhookInfo] is
    called up to twice and may answer differently, so its answers are given
    by position. *)
Record Host := {
  telepot_Bot : pyval → Bot;
  getMe : result json;
  getWebhookInfo : nat → result json;
  setWebhook : string → result value;
  path_exists : string → bool;
  read : string → result string;
  jinja2_Template : string → result Template
}.

(** A call the constructor makes. *)
Inductive init_call :=
| bot_getMe
| bot_getWebhookInfo
| bot_setWebhook (url : string)
| os_path_exists (path : string)
| file_read (path : string)
| Template_new (source : string).

(** A run of the constructor: the calls it made and how it ended.  There is
    no [return] and no [try] in it. *)
Record I (A : Type) := Run { made : list init_call; ended : result A }.
Arguments Run {A} made ended.
Arguments made {A} i.
Arguments ended {A} i.

#[global] Instance I_ret : MRet I := λ A a, Run [] (Returns a).

#[global] Instance I_bind : MBind I := λ A B k m,
  match m with
  | Run cs (Returns a) => let '(Run cs' r) := k a in Run (cs ++ cs') r
  | Run cs (Raises e) => Run cs (Raises e)
  end.

Definition ask {A} (c : init_call) (r : result A) : I A := Run [c] r.

#[global] Instance value_eq_dec : EqDecision value.
Proof. solve_decision. Defined.

(** [d[k]] on a JSON object. *)
Definition subscript (d : json) (k : string) : I value :=
  match d !! k with
  | Some v => mret v
  | None => Run [] (Raises (KeyError k))
  end.

(** [TelegramBot.__init__].  The token is handed to [telepot.Bot] as it is;
    the webhook URL is the one of [cfg]; [PluginBase.__init__] only stores
    the name. *)
Definition __init__ (host : Host) (TELEGRAM_TOKEN : pyval)
    (TELEGRAM_TEMPLATE : option string) (cfg : Settings) : I TelegramBot :=
  let bot := telepot_Bot host TELEGRAM_TOKEN in
  ask bot_getMe (getMe host) ;;
  (if truthy_str (TELEGRAM_WEBHOOK_URL cfg) then
     let url := default "" (TELEGRAM_WEBHOOK_URL cfg) in
     info ← ask bot_getWebhookInfo (getWebhookInfo host 0) ;
     registered ← subscript info "url" ;
     if negb (bool_decide (VStr url = registered)) then
       ask (bot_setWebhook url) (setWebhook host url) ;;
       ask bot_getWebhookInfo (getWebhookInfo host 1) ;;
       mret tt
     else mret tt
   else mret tt) ;;
  template ←
    (if truthy_str TELEGRAM_TEMPLATE then
       let path := default "" TELEGRAM_TEMPLATE in
       present ← ask (os_path_exists path) (Returns (path_exists host path)) ;
       if present : bool then
         source ← ask (file_read path) (read host path) ;
         ask (Template_new source) (jinja2_Template host source)
       else ask (Template_new path) (jinja2_Template host path)
     else ask (Template_new DEFAULT_TMPL) (jinja2_Template host DEFAULT_TMPL)) ;
  mret {| bot := bot; template := template |}.

(** [pre_receive] hands the alert back; [status_change] does nothing. *)
Definition pre_receive (alert : Alert) : Alert := alert.

Definition status_change (alert : Alert) (status summary : string) : M unit :=
  return_.

(** ** Notions used in the statements about import and construction *)

(** [x] occurs in [s] as a contiguous piece. *)
Definition occurs (x s : string) : Prop := ∃ a b, s = a +:+ x +:+ b.

(** Lines 65-68 of the constructor on their own. *)
Definition webhook_block (host : Host) (cfg : Settings) : I unit :=
  if truthy_str (TELEGRAM_WEBHOOK_URL cfg) then
    let url := default "" (TELEGRAM_WEBHOOK_URL cfg) in
    info ← ask bot_getWebhookInfo (getWebhookInfo host 0) ;
    registered ← subscript info "url" ;
    if negb (bool_decide (VStr url = registered)) then
      ask (bot_setWebhook url) (setWebhook host url) ;;
      ask bot_getWebhookInfo (getWebhookInfo host 1) ;;
      mret tt
    else mret tt
  else mret tt.

(** Lines 71-78 of the constructor on their own. *)
Definition template_block (host : Host) (TELEGRAM_TEMPLATE : option string)
  : I Template :=
  if truthy_str TELEGRAM_TEMPLATE then
    let path := default "" TELEGRAM_TEMPLATE in
    present ← ask (os_path_exists path) (Returns (path_exists host path)) ;
    if present : bool then
      source ← ask (file_read path) (read host path) ;
      ask (Template_new source) (jinja2_Template host source)
    else ask (Template_new path) (jinja2_Template host path)
  else ask (Template_new DEFAULT_TMPL) (jinja2_Template host DEFAULT_TMPL).

(** ** A sample site *)

Module Site.

Definition config : gmap string pyval :=
  {[ "TELEGRAM_TOKEN" := PStr "123:abc";
     "TELEGRAM_CHAT_ID" := PInt 42;
     "TELEGRAM_FILTER_NOTIFICATION_SEVERITY" := PList [];
     "TELEGRAM_PROXY_USERNAME" := PStr "ops" ]}.

Definition environ : gmap string string :=
  {[ "TELEGRAM_FILTER_NOTIFICATION_SEVERITY" := "critical,major";
     "TELEGRAM_PROXY" := "";
     "TELEGRAM_CHAT_ID_PER_CUSTOMER" := "{}";
     "TELEGRAM_PROXY_PASSWORD" := "secret" ]}.

(** The settings of the hook under [config] and [environ]. *)
Definition settings : Settings :=
  {| TELEGRAM_CHAT_ID := VInt 42;
     TELEGRAM_WEBHOOK_URL := None;
     TELEGRAM_SOUND_NOTIFICATION_SEVERITY := SevNone;
     TELEGRAM_FILTER_NOTIFICATION_SEVERITY := SevStr "critical,major";
     TELEGRAM_CHAT_ID_PER_CUSTOMER := None |}.

(** A site with all three proxy settings. *)
Definition proxied : gmap string pyval :=
  {[ "TELEGRAM_PROXY" := PStr "http://proxy:3128";
     "TELEGRAM_PROXY_USERNAME" := PStr "ops";
     "TELEGRAM_PROXY_PASSWORD" := PStr "secret" ]}.

(** A host where Telegram has another webhook registered and the template
    setting names a file. *)
Definition host : Host :=
  {| telepot_Bot _ := Sample.up;
     getMe := Returns {[ "username" := VStr "alerta_bot" ]};
     getWebhookInfo n :=
       Returns {[ "url" := VStr (if n is 0 then "https://old.example/hook"
                                 else "https://alerta.example/telegram") ]};
     setWebhook _ := Returns (VBool true);
     path_exists p := bool_decide (p = "/etc/alerta/telegram.j2");
     read p := if bool_decide (p = "/etc/alerta/telegram.j2")
               then Returns "{{ text }}"
               else Raises (OtherException "FileNotFoundError" p);
     jinja2_Template _ := Returns Sample.header |}.

(** The same host with Telegram unreachable. *)
Definition down : Host :=
  {| telepot_Bot := telepot_Bot host;
     getMe := Raises (OtherException "ConnectionError" "network unreachable");
     getWebhookInfo := getWebhookInfo host;
     setWebhook := setWebhook host;
     path_exists := path_exists host;
     read := read host;
     jinja2_Template := jinja2_Template host |}.

(** The same host where the second look at the webhook fails. *)
Definition flaky : Host :=
  {| telepot_Bot := telepot_Bot host;
     getMe := getMe host;
     getWebhookInfo n :=
       if n is 0 then getWebhookInfo host 0
       else Raises (OtherException "ReadTimeoutError" "timed out");
     setWebhook := setWebhook host;
     path_exists := path_exists host;
     read := read host;
     jinja2_Template := jinja2_Template host |}.

(** The same host where the template file is a directory. *)
Definition unreadable : Host :=
  {| telepot_Bot := telepot_Bot host;
     getMe := getMe host;
     getWebhookInfo := getWebhookInfo host;
     setWebhook := setWebhook host;
     path_exists := path_exists host;
     read p := Raises (OtherException "IsADirectoryError" p);
     jinja2_Template := jinja2_Template host |}.

End Site.

(** * Properties *)

(** ** The block monad *)

Lemma M_left_id {A B} (a : A) (k : A → M B) : mret a ≫= k = k a.
Proof. unfold mbind, M_bind, mret, M_ret. by destruct (k a). Qed.

Lemma M_right_id {A} (m : M A) : m ≫= mret = m.
Proof.
  unfold mbind, M_bind, mret, M_ret.
  destruct m as [cs [a| |e]]; [|done..]. by rewrite app_nil_r.
Qed.

Lemma M_assoc {A B C} (m : M A) (k : A → M B) (h : B → M C) :
  (m ≫= k) ≫= h = m ≫= (λ a, k a ≫= h).
Proof.
  unfold mbind, M_bind.
  destruct m as [cs [a| |e]]; [|done..].
  destruct (k a) as [cs' [b| |e]]; [|done..].
  destruct (h b) as [cs'' r]. by rewrite app_assoc.
Qed.

(** A [return] or an exception ends the block where it occurs. *)
Lemma M_return_skips {A B} (k : A → M B) : return_ ≫= k = return_.
Proof. reflexivity. Qed.

Lemma M_raise_skips {A B} e (k : A → M B) : raise e ≫= k = raise e.
Proof. reflexivity. Qed.

(** [except] clauses only see exceptions. *)
Lemma try_except_value {A} cs (a : A) h :
  try_except (cs, Value a) h = (cs, Value a).
Proof. reflexivity. Qed.

Lemma try_except_return {A} cs (h : exn → M A) :
  try_except (cs, Return) h = (cs, Return).
Proof. reflexivity. Qed.

(** ** The shape of a run *)

Lemma passes_filter_true cfg alert :
  passes_filter cfg alert = true →
  repeat alert = false ∧
  bool_decide (status alert = "closed") &&
    bool_decide (previous_severity alert = "indeterminate") = false ∧
  (truthy (TELEGRAM_FILTER_NOTIFICATION_SEVERITY cfg) = true →
   (if bool_decide (status alert = "closed")
    then py_in (previous_severity alert)
               (TELEGRAM_FILTER_NOTIFICATION_SEVERITY cfg)
    else py_in (previous_severity alert)
               (TELEGRAM_FILTER_NOTIFICATION_SEVERITY cfg)
         || py_in (severity alert)
                  (TELEGRAM_FILTER_NOTIFICATION_SEVERITY cfg)) = true).
Proof.
  unfold passes_filter. intros H.
  apply andb_prop in H as [H Hf]. apply andb_prop in H as [Hr Hb].
  apply negb_true_iff in Hr, Hb. split; [done|]. split; [done|].
  intros Ht. rewrite Ht in Hf. exact Hf.
Qed.

(** Resolves the three [if] statements of the filter for an alert that
    passes it; what is left of the goal is the run from line 123 on. *)
Ltac past_filter H :=
  apply passes_filter_true in H as (-> & -> & H);
  unfold when at 1 2 3;
  destruct (truthy (TELEGRAM_FILTER_NOTIFICATION_SEVERITY _));
  [ specialize (H eq_refl);
    destruct (bool_decide (status _ = "closed"));
    [ rewrite H
    | destruct (py_in (previous_severity _) _), (py_in (severity _) _);
      try discriminate H ]
  | ]; clear H; simpl.

Ltac run_block :=
  unfold mbind, M_bind, mret, M_ret, try_except, invoke, raise,
    contains_key, getitem; simpl.

(** An alert that does not pass the filter: the hook returns at once. *)
Lemma post_receive_filtered cfg self alert :
  passes_filter cfg alert = false →
  post_receive cfg self alert = ([], Return).
Proof.
  unfold post_receive, passes_filter, when.
  destruct (repeat alert); [reflexivity|].
  destruct (bool_decide (status alert = "closed")); simpl.
  - destruct (bool_decide (previous_severity alert = "indeterminate"));
      [reflexivity|].
    simpl. destruct (truthy _); simpl; [|discriminate].
    intros ->. reflexivity.
  - destruct (truthy _); simpl; [|discriminate].
    destruct (py_in (previous_severity alert) _); simpl; [discriminate|].
    intros ->. reflexivity.
Qed.

(** The template raises something other than [UndefinedError]: the
    exception leaves the hook as it is. *)
Lemma post_receive_render_raises cfg self alert e :
  passes_filter cfg alert = true →
  render (template self) alert = Raises e →
  (∀ msg, e ≠ UndefinedError msg) →
  post_receive cfg self alert = ([template_render alert], Raise e).
Proof.
  intros Hp Hr Hne. unfold post_receive.
  past_filter Hp.
  all: rewrite Hr; run_block.
  all: destruct e; try reflexivity; exfalso; eapply Hne; reflexivity.
Qed.

(** No per-customer map: the membership test of line 155 fails inside the
    [try] and the generic handler wraps it. *)
Lemma post_receive_unmapped cfg self alert t :
  passes_filter cfg alert = true →
  binds_text self alert t →
  TELEGRAM_CHAT_ID_PER_CUSTOMER cfg = None →
  post_receive cfg self alert
  = ([template_render alert],
     Raise (delivery_error
              (TypeError "argument of type 'NoneType' is not iterable"))).
Proof.
  intros Hp Ht Hm. unfold post_receive.
  past_filter Hp.
  all: destruct Ht as [t Hr | msg Hr]; rewrite Hr, Hm; run_block; reflexivity.
Qed.

(** With a per-customer map: exactly one [sendMessage], and the hook ends
    as that call does. *)
Lemma post_receive_dispatch cfg self alert t d :
  passes_filter cfg alert = true →
  binds_text self alert t →
  TELEGRAM_CHAT_ID_PER_CUSTOMER cfg = Some d →
  ∃ m,
    chat_id m = default (TELEGRAM_CHAT_ID cfg) (customer alert ≫= (d !!.)) ∧
    msg_text m = t ∧
    parse_mode m = "Markdown" ∧
    disable_notification m
      = truthy (TELEGRAM_SOUND_NOTIFICATION_SEVERITY cfg) &&
        negb (py_in (severity alert)
                    (TELEGRAM_SOUND_NOTIFICATION_SEVERITY cfg)) ∧
    post_receive cfg self alert
    = ([template_render alert; bot_sendMessage m],
       match sendMessage (bot self) m with
       | Returns _ => Value tt
       | Raises e => Raise (delivery_error e)
       end).
Proof.
  intros Hp Ht Hm. unfold post_receive.
  past_filter Hp.
  all: destruct Ht as [t Hr | msg Hr]; rewrite Hr, Hm.
  all: destruct (customer alert) as [c|]; [destruct (d !! c) eqn:Hd|].
  all: run_block; rewrite ?Hd; simpl.
  all: match goal with
       | |- context [sendMessage ?b ?m] => exists m
       end.
  all: simpl; rewrite ?Hd; simpl.
  all: split_and!; try reflexivity.
  all: try by destruct (truthy _), (py_in _ _).
  all: match goal with
       | |- context [sendMessage ?b ?m] => destruct (sendMessage b m) as [?|[]]
       end; reflexivity.
Qed.

(** The template returns, raises [UndefinedError], or raises something
    else. *)
Lemma render_cases self alert :
  (∃ t, binds_text self alert t) ∨
  (∃ e, render (template self) alert = Raises e ∧
        ∀ msg, e ≠ UndefinedError msg).
Proof.
  destruct (render (template self) alert) as [t|e] eqn:Hr.
  - left. exists t. by apply binds_rendered.
  - destruct e; try (right; eexists; split; [reflexivity | discriminate]).
    left. eexists. by eapply binds_fallback.
Qed.

(** The template is rendered for exactly the alerts that pass the filter,
    and then it is the first call of the run. *)
Lemma post_receive_renders_first cfg self alert :
  passes_filter cfg alert = true →
  ∃ cs, calls (post_receive cfg self alert) = template_render alert :: cs.
Proof.
  intros Hp.
  destruct (render_cases self alert) as [[t Ht] | (e & Hr & Hne)].
  - destruct (TELEGRAM_CHAT_ID_PER_CUSTOMER cfg) as [d|] eqn:Hm.
    + destruct (post_receive_dispatch _ _ _ _ _ Hp Ht Hm)
        as (m & _ & _ & _ & _ & ->).
      by eexists.
    + rewrite (post_receive_unmapped _ _ _ _ Hp Ht Hm). by eexists.
  - rewrite (post_receive_render_raises _ _ _ _ Hp Hr Hne). by eexists.
Qed.

Lemma notifies_passes cfg self alert :
  notifies (post_receive cfg self alert) ↔ passes_filter cfg alert = true.
Proof.
  unfold notifies. split.
  - intros [fields Hin].
    destruct (passes_filter cfg alert) eqn:Hp; [done|].
    rewrite (post_receive_filtered _ self _ Hp) in Hin.
    by apply not_elem_of_nil in Hin.
  - intros Hp. destruct (post_receive_renders_first _ self _ Hp) as [cs ->].
    exists alert. apply list_elem_of_here.
Qed.

(** Every [sendMessage] of a run is the one of [post_receive_dispatch]. *)
Lemma sends_inv cfg self alert m :
  sends (post_receive cfg self alert) m →
  ∃ t d,
    binds_text self alert t ∧
    TELEGRAM_CHAT_ID_PER_CUSTOMER cfg = Some d ∧
    chat_id m = default (TELEGRAM_CHAT_ID cfg) (customer alert ≫= (d !!.)) ∧
    msg_text m = t ∧
    disable_notification m
      = truthy (TELEGRAM_SOUND_NOTIFICATION_SEVERITY cfg) &&
        negb (py_in (severity alert)
                    (TELEGRAM_SOUND_NOTIFICATION_SEVERITY cfg)) ∧
    post_receive cfg self alert
    = ([template_render alert; bot_sendMessage m],
       match sendMessage (bot self) m with
       | Returns _ => Value tt
       | Raises e => Raise (delivery_error e)
       end).
Proof.
  unfold sends. intros Hin.
  destruct (passes_filter cfg alert) eqn:Hp; cycle 1.
  { rewrite (post_receive_filtered _ self _ Hp) in Hin.
    by apply not_elem_of_nil in Hin. }
  destruct (render_cases self alert) as [[t Ht] | (e & Hr & Hne)]; cycle 1.
  { rewrite (post_receive_render_raises _ _ _ _ Hp Hr Hne) in Hin.
    apply list_elem_of_singleton in Hin. discriminate Hin. }
  destruct (TELEGRAM_CHAT_ID_PER_CUSTOMER cfg) as [d|] eqn:Hm; cycle 1.
  { rewrite (post_receive_unmapped _ _ _ _ Hp Ht Hm) in Hin.
    apply list_elem_of_singleton in Hin. discriminate Hin. }
  destruct (post_receive_dispatch _ _ _ _ _ Hp Ht Hm)
    as (m' & Hc & Hx & _ & Hs & Hrun).
  rewrite Hrun in Hin. unfold calls in Hin. simpl in Hin.
  apply elem_of_cons in Hin as [Hin|Hin]; [discriminate Hin|].
  apply list_elem_of_singleton in Hin. injection Hin as ->.
  by exists t, d.
Qed.

Lemma deliverable_sends cfg self alert :
  deliverable cfg self alert →
  (∃ m, sends (post_receive cfg self alert) m)
  ↔ notifies (post_receive cfg self alert).
Proof.
  intros [[d Hm] [t Ht]]. rewrite notifies_passes. split.
  - intros [m Hs]. destruct (passes_filter cfg alert) eqn:Hp; [done|].
    unfold sends in Hs. rewrite (post_receive_filtered _ self _ Hp) in Hs.
    by apply not_elem_of_nil in Hs.
  - intros Hp.
    destruct (post_receive_dispatch _ _ _ _ _ Hp Ht Hm)
      as (m & _ & _ & _ & _ & Hrun).
    exists m. unfold sends. rewrite Hrun.
    apply list_elem_of_further, list_elem_of_here.
Qed.

(** ** The notification filter *)

(** C6.  An alert whose [repeat] flag is set is suppressed whatever its
    other fields and the settings are: the hook returns without rendering
    the template and without calling [sendMessage]. *)
Theorem repeat_suppressed cfg self alert :
  repeat alert = true →
  calls (post_receive cfg self alert) = [] ∧
  outcome (post_receive cfg self alert) = Return.
Proof.
  intros Hr. rewrite post_receive_filtered; [done|].
  unfold passes_filter. by rewrite Hr.
Qed.

Lemma repeat_suppressed_witness :
  repeat Sample.again = true ∧
  calls (post_receive Sample.plain
           {| bot := Sample.up; template := Sample.header |} Sample.again) = [] ∧
  outcome (post_receive Sample.plain
             {| bot := Sample.up; template := Sample.header |} Sample.again)
  = Return.
Proof.
  split; [reflexivity|].
  apply (repeat_suppressed Sample.plain
           {| bot := Sample.up; template := Sample.header |} Sample.again).
  reflexivity.
Defined.

(** C7.  An alert that is not a repeat, is closed and whose previous
    severity is indeterminate is suppressed: the hook returns without
    rendering the template and without calling [sendMessage]. *)
Theorem closed_blip_suppressed cfg self alert :
  repeat alert = false →
  status alert = "closed" →
  previous_severity alert = "indeterminate" →
  calls (post_receive cfg self alert) = [] ∧
  outcome (post_receive cfg self alert) = Return.
Proof.
  intros Hr Hs Hp. rewrite post_receive_filtered; [done|].
  unfold passes_filter. rewrite Hr, Hs, Hp. reflexivity.
Qed.

Lemma closed_blip_suppressed_witness :
  calls (post_receive Sample.plain
           {| bot := Sample.up; template := Sample.header |} Sample.blip) = [] ∧
  outcome (post_receive Sample.plain
             {| bot := Sample.up; template := Sample.header |} Sample.blip)
  = Return.
Proof.
  apply (closed_blip_suppressed Sample.plain
           {| bot := Sample.up; template := Sample.header |} Sample.blip);
    reflexivity.
Defined.

(** The filter decision when neither of the first two rules applies. *)
Lemma passes_filter_rules cfg alert :
  repeat alert = false →
  ¬ (status alert = "closed" ∧ previous_severity alert = "indeterminate") →
  passes_filter cfg alert
  = negb (truthy (TELEGRAM_FILTER_NOTIFICATION_SEVERITY cfg)) ||
    (if bool_decide (status alert = "closed")
     then py_in (previous_severity alert)
                (TELEGRAM_FILTER_NOTIFICATION_SEVERITY cfg)
     else py_in (previous_severity alert)
                (TELEGRAM_FILTER_NOTIFICATION_SEVERITY cfg)
          || py_in (severity alert)
                   (TELEGRAM_FILTER_NOTIFICATION_SEVERITY cfg)).
Proof.
  intros Hr Hb. unfold passes_filter. rewrite Hr.
  repeat case_bool_decide; simpl; try reflexivity.
  destruct Hb. by split.
Qed.

(** C1.  With a non-empty list of filter severities, an alert that is not
    a repeat and not closed with indeterminate previous severity is
    notified about, if closed, exactly when its previous severity is in the
    list, and otherwise exactly when its previous or its current severity
    is in the list.  Whenever the alert is deliverable, being notified
    about and [sendMessage] being called are the same. *)
Theorem filter_by_severity cfg self alert l :
  TELEGRAM_FILTER_NOTIFICATION_SEVERITY cfg = SevList l →
  l ≠ [] →
  repeat alert = false →
  ¬ (status alert = "closed" ∧ previous_severity alert = "indeterminate") →
  (status alert = "closed" →
   (notifies (post_receive cfg self alert) ↔ previous_severity alert ∈ l)) ∧
  (status alert ≠ "closed" →
   (notifies (post_receive cfg self alert)
    ↔ previous_severity alert ∈ l ∨ severity alert ∈ l)) ∧
  (deliverable cfg self alert →
   ((∃ m, sends (post_receive cfg self alert) m)
    ↔ notifies (post_receive cfg self alert))).
Proof.
  intros HF Hl Hr Hb. split_and!.
  - intros Hs. rewrite notifies_passes, passes_filter_rules by done.
    rewrite HF. simpl. rewrite bool_decide_eq_false_2 by done.
    rewrite bool_decide_eq_true_2 by done. simpl.
    apply bool_decide_eq_true.
  - intros Hs. rewrite notifies_passes, passes_filter_rules by done.
    rewrite HF. simpl. rewrite bool_decide_eq_false_2 by done.
    rewrite (bool_decide_eq_false_2 (status alert = "closed")) by done.
    simpl. rewrite orb_true_iff, !bool_decide_eq_true. done.
  - apply deliverable_sends.
Qed.

Lemma filter_by_severity_witness :
  (status Sample.closed = "closed" →
   (notifies (post_receive Sample.watched
                {| bot := Sample.up; template := Sample.header |}
                Sample.closed)
    ↔ previous_severity Sample.closed ∈ ["critical"; "major"])) ∧
  (status Sample.closed ≠ "closed" →
   (notifies (post_receive Sample.watched
                {| bot := Sample.up; template := Sample.header |}
                Sample.closed)
    ↔ previous_severity Sample.closed ∈ ["critical"; "major"]
      ∨ severity Sample.closed ∈ ["critical"; "major"])) ∧
  (deliverable Sample.watched
     {| bot := Sample.up; template := Sample.header |} Sample.closed →
   ((∃ m, sends (post_receive Sample.watched
                   {| bot := Sample.up; template := Sample.header |}
                   Sample.closed) m)
    ↔ notifies (post_receive Sample.watched
                  {| bot := Sample.up; template := Sample.header |}
                  Sample.closed))).
Proof.
  apply (filter_by_severity Sample.watched
           {| bot := Sample.up; template := Sample.header |}
           Sample.closed ["critical"; "major"]).
  - reflexivity.
  - discriminate.
  - reflexivity.
  - intros [_ H]. discriminate H.
Defined.

(** C8.  With the filter severities unset or empty, every alert that is
    not a repeat and not closed with indeterminate previous severity is
    notified about, whatever its status and severities; when it is
    deliverable, [sendMessage] is called. *)
Theorem no_filter_allows cfg self alert :
  truthy (TELEGRAM_FILTER_NOTIFICATION_SEVERITY cfg) = false →
  repeat alert = false →
  ¬ (status alert = "closed" ∧ previous_severity alert = "indeterminate") →
  notifies (post_receive cfg self alert) ∧
  (deliverable cfg self alert → ∃ m, sends (post_receive cfg self alert) m).
Proof.
  intros HF Hr Hb.
  assert (notifies (post_receive cfg self alert)) as Hn.
  { rewrite notifies_passes, passes_filter_rules by done. by rewrite HF. }
  split; [done|]. intros Hd. by apply deliverable_sends.
Qed.

Lemma no_filter_allows_witness :
  notifies (post_receive Sample.plain
              {| bot := Sample.up; template := Sample.header |}
              Sample.opened) ∧
  (deliverable Sample.plain
     {| bot := Sample.up; template := Sample.header |} Sample.opened →
   ∃ m, sends (post_receive Sample.plain
                 {| bot := Sample.up; template := Sample.header |}
                 Sample.opened) m).
Proof.
  apply (no_filter_allows Sample.plain
           {| bot := Sample.up; template := Sample.header |} Sample.opened).
  - reflexivity.
  - reflexivity.
  - intros [H _]. discriminate H.
Defined.

(** ** The outbound call *)

(** C2, as stated, fails: with no sound severities configured the message
    for [Sample.opened] goes out with [disable_notification] false, that
    is, audibly, so it is not the case that delivery is always silent. *)
Lemma sound_unset_is_audible :
  TELEGRAM_SOUND_NOTIFICATION_SEVERITY Sample.plain = SevNone ∧
  ¬ (∀ m, sends (post_receive Sample.plain
                   {| bot := Sample.up; template := Sample.header |}
                   Sample.opened) m →
          disable_notification m = true).
Proof.
  split; [reflexivity|]. intros H.
  specialize (H {| chat_id := VInt (-1001);
                   msg_text := "[open] critical";
                   parse_mode := "Markdown";
                   disable_notification := false;
                   reply_markup := None |}).
  simpl in H. discriminate H.
  apply list_elem_of_further, list_elem_of_here.
Qed.

(** C2, amended.  In every [sendMessage] call: with a non-empty list of
    sound severities the message is silent ([disable_notification] true)
    unless the alert's current severity is in the list; with the sound
    severities unset or empty the message is never silent. *)
Theorem sound_by_severity cfg self alert m :
  sends (post_receive cfg self alert) m →
  (∀ l, TELEGRAM_SOUND_NOTIFICATION_SEVERITY cfg = SevList l → l ≠ [] →
        (disable_notification m = false ↔ severity alert ∈ l)) ∧
  (truthy (TELEGRAM_SOUND_NOTIFICATION_SEVERITY cfg) = false →
   disable_notification m = false).
Proof.
  intros Hs. apply sends_inv in Hs as (t & d & _ & _ & _ & _ & -> & _).
  split.
  - intros l -> Hl. simpl. rewrite bool_decide_eq_false_2 by done. simpl.
    rewrite negb_false_iff. apply bool_decide_eq_true.
  - by intros ->.
Qed.

Lemma sound_by_severity_witness :
  (∀ l, TELEGRAM_SOUND_NOTIFICATION_SEVERITY Sample.watched = SevList l →
        l ≠ [] →
        (disable_notification Sample.opened_message = false
         ↔ severity Sample.opened ∈ l)) ∧
  (truthy (TELEGRAM_SOUND_NOTIFICATION_SEVERITY Sample.watched) = false →
   disable_notification Sample.opened_message = false).
Proof.
  apply (sound_by_severity Sample.watched
           {| bot := Sample.up; template := Sample.header |}
           Sample.opened Sample.opened_message).
  apply list_elem_of_further, list_elem_of_here.
Defined.

(** C3, as stated, fails: when the template raises [UndefinedError], the
    text handed to [sendMessage] is not the sentence the specification
    quotes. *)
Lemma fallback_is_not_the_quoted_text :
  render Sample.broken Sample.opened
  = Raises (UndefinedError "'nosuchfield' is undefined") ∧
  ¬ (∀ m, sends (post_receive Sample.plain
                   {| bot := Sample.up; template := Sample.broken |}
                   Sample.opened) m →
          msg_text m = "Something bad has happened but we can't render " +:+
                       "your message template.").
Proof.
  split; [reflexivity|]. intros H.
  specialize (H Sample.fallback_message).
  simpl in H. discriminate H.
  apply list_elem_of_further, list_elem_of_here.
Qed.

(** C3, amended.  When rendering raises [UndefinedError] in a run that got
    past the filter, the error does not leave the hook: the text of every
    [sendMessage] call is ["Something bad has happened but also we can't
    handle your telegram template message."], and with a per-customer map
    configured the call is made, right after the rendering. *)
Theorem render_fallback cfg self alert msg :
  render (template self) alert = Raises (UndefinedError msg) →
  notifies (post_receive cfg self alert) →
  (∀ msg', outcome (post_receive cfg self alert)
           ≠ Raise (UndefinedError msg')) ∧
  (∀ m, sends (post_receive cfg self alert) m →
        msg_text m = "Something bad has happened but also we can't handle " +:+
                     "your telegram template message.") ∧
  (is_Some (TELEGRAM_CHAT_ID_PER_CUSTOMER cfg) →
   ∃ m, calls (post_receive cfg self alert)
        = [template_render alert; bot_sendMessage m]).
Proof.
  intros Hr Hp. apply notifies_passes in Hp.
  pose proof (binds_fallback self alert msg Hr) as Ht.
  split_and!.
  - intros msg'.
    destruct (TELEGRAM_CHAT_ID_PER_CUSTOMER cfg) as [d|] eqn:Hm.
    + destruct (post_receive_dispatch _ _ _ _ _ Hp Ht Hm)
        as (m & _ & _ & _ & _ & ->).
      unfold outcome. simpl.
      destruct (sendMessage (bot self) m) as [?|[]]; discriminate.
    + rewrite (post_receive_unmapped _ _ _ _ Hp Ht Hm). discriminate.
  - intros m Hs. apply sends_inv in Hs as (t & d & Ht' & _ & _ & -> & _).
    destruct Ht' as [t Hr' | msg' _]; [congruence | reflexivity].
  - intros [d Hm].
    destruct (post_receive_dispatch _ _ _ _ _ Hp Ht Hm)
      as (m & _ & _ & _ & _ & ->).
    by exists m.
Qed.

Lemma render_fallback_witness :
  (∀ msg', outcome (post_receive Sample.plain
                      {| bot := Sample.up; template := Sample.broken |}
                      Sample.opened)
           ≠ Raise (UndefinedError msg')) ∧
  (∀ m, sends (post_receive Sample.plain
                 {| bot := Sample.up; template := Sample.broken |}
                 Sample.opened) m →
        msg_text m = "Something bad has happened but also we can't handle " +:+
                     "your telegram template message.") ∧
  (is_Some (TELEGRAM_CHAT_ID_PER_CUSTOMER Sample.plain) →
   ∃ m, calls (post_receive Sample.plain
                 {| bot := Sample.up; template := Sample.broken |}
                 Sample.opened)
        = [template_render Sample.opened; bot_sendMessage m]).
Proof.
  apply (render_fallback Sample.plain
           {| bot := Sample.up; template := Sample.broken |} Sample.opened
           "'nosuchfield' is undefined").
  - reflexivity.
  - exists Sample.opened. apply list_elem_of_here.
Defined.



(** C5.  When the [sendMessage] call raises, the hook raises
    [RuntimeError] and nothing else: for a [TelegramError] its arguments
    are a message, the provider's error code, its description and its raw
    payload; for any other exception they are a generic message and the
    original exception. *)
Theorem send_failure_wrapped cfg self alert m e :
  sends (post_receive cfg self alert) m →
  sendMessage (bot self) m = Raises e →
  (∃ args, outcome (post_receive cfg self alert) = Raise (RuntimeError args)) ∧
  (∀ error_code description payload,
     e = TelegramError error_code description payload →
     outcome (post_receive cfg self alert)
     = Raise (RuntimeError
                [OStr "Telegram: ERROR - %s, description= %s, json=%s";
                 OInt error_code; OStr description; OJson payload])) ∧
  ((∀ error_code description payload,
      e ≠ TelegramError error_code description payload) →
   outcome (post_receive cfg self alert)
   = Raise (RuntimeError [OStr "Telegram: ERROR - %s"; OExn e])).
Proof.
  intros Hs He. apply sends_inv in Hs as (t & d & _ & _ & _ & _ & _ & ->).
  unfold outcome. simpl. rewrite He. split_and!.
  - destruct e; by eexists.
  - by intros c ds j ->.
  - intros Hne. destruct e; try reflexivity. by destruct (Hne error_code description payload).
Qed.

Lemma send_failure_wrapped_witness :
  (∃ args, outcome (post_receive Sample.watched
                      {| bot := Sample.limited; template := Sample.header |}
                      Sample.opened)
           = Raise (RuntimeError args)) ∧
  (∀ error_code description payload,
     TelegramError 429 "Too Many Requests"
       {[ "ok" := VBool false; "error_code" := VInt 429 ]}
     = TelegramError error_code description payload →
     outcome (post_receive Sample.watched
                {| bot := Sample.limited; template := Sample.header |}
                Sample.opened)
     = Raise (RuntimeError
                [OStr "Telegram: ERROR - %s, description= %s, json=%s";
                 OInt error_code; OStr description; OJson payload])) ∧
  ((∀ error_code description payload,
      TelegramError 429 "Too Many Requests"
        {[ "ok" := VBool false; "error_code" := VInt 429 ]}
      ≠ TelegramError error_code description payload) →
   outcome (post_receive Sample.watched
              {| bot := Sample.limited; template := Sample.header |}
              Sample.opened)
   = Raise (RuntimeError
              [OStr "Telegram: ERROR - %s";
               OExn (TelegramError 429 "Too Many Requests"
                       {[ "ok" := VBool false; "error_code" := VInt 429 ]})])).
Proof.
  apply (send_failure_wrapped Sample.watched
           {| bot := Sample.limited; template := Sample.header |}
           Sample.opened Sample.opened_message).
  - apply list_elem_of_further, list_elem_of_here.
  - reflexivity.
Defined.

(** C9.  With the per-customer map unset, [sendMessage] is never called,
    whatever default channel is configured; and for every alert that passes
    the filter and whose text is bound, the membership test on the unset
    map raises [TypeError], which the generic handler turns into
    [RuntimeError] before any call to the bot. *)
Theorem unmapped_never_delivers cfg self alert :
  TELEGRAM_CHAT_ID_PER_CUSTOMER cfg = None →
  (∀ m, ¬ sends (post_receive cfg self alert) m) ∧
  (passes_filter cfg alert = true →
   (∃ t, binds_text self alert t) →
   post_receive cfg self alert
   = ([template_render alert],
      Raise (RuntimeError
               [OStr "Telegram: ERROR - %s";
                OExn (TypeError
                        "argument of type 'NoneType' is not iterable")]))).
Proof.
  intros Hm. split.
  - intros m Hs. apply sends_inv in Hs as (t & d & _ & Hm' & _). congruence.
  - intros Hp [t Ht].
    by rewrite (post_receive_unmapped _ _ _ _ Hp Ht Hm).
Qed.

Lemma unmapped_never_delivers_witness :
  (∀ m, ¬ sends (post_receive Sample.unmapped
                   {| bot := Sample.up; template := Sample.header |}
                   Sample.opened) m) ∧
  post_receive Sample.unmapped
    {| bot := Sample.up; template := Sample.header |} Sample.opened
  = ([template_render Sample.opened],
     Raise (RuntimeError
              [OStr "Telegram: ERROR - %s";
               OExn (TypeError
                       "argument of type 'NoneType' is not iterable")])).
Proof.
  destruct (unmapped_never_delivers Sample.unmapped
              {| bot := Sample.up; template := Sample.header |}
              Sample.opened eq_refl) as [Hnever Hraises].
  split; [exact Hnever|].
  apply Hraises.
  - reflexivity.
  - exists "[open] critical". apply binds_rendered. reflexivity.
Defined.

(** ** The cases the specification lists for the filter and the errors *)

Section Table.

Let plugin := {| bot := Sample.up; template := Sample.header |}.

(** Filter [critical, major]: an open alert going from warning to critical
    is sent. *)
Example table_open_critical :
  calls (post_receive Sample.watched plugin Sample.opened)
  = [template_render Sample.opened; bot_sendMessage Sample.opened_message].
Proof. reflexivity. Qed.

(** ... a closed alert whose previous severity was warning is not ... *)
Example table_closed_warning :
  post_receive Sample.watched plugin
    (Sample.alert "closed" "normal" "warning" None false)
  = ([], Return).
Proof. reflexivity. Qed.

(** ... and a closed alert whose previous severity was critical is; it is
    sent silently, as the current severity is not a sound severity. *)
Example table_closed_critical :
  ∃ m, calls (post_receive Sample.watched plugin Sample.closed)
       = [template_render Sample.closed; bot_sendMessage m] ∧
       chat_id m = VInt 42 ∧ disable_notification m = true.
Proof. eexists. split; [reflexivity|]. split; reflexivity. Qed.

(** A string from the environment is searched for substrings. *)
Example table_filter_from_environment :
  py_in "major" (SevStr "critical,major") = true ∧
  py_in "warning" (SevStr "critical,major") = false ∧
  py_in "" (SevStr "critical,major") = true.
Proof. split_and!; reflexivity. Qed.

(** A network failure surfaces as [RuntimeError] carrying the original
    exception. *)
Example table_network_failure :
  outcome (post_receive Sample.plain
             {| bot := Sample.offline; template := Sample.header |}
             Sample.opened)
  = Raise (RuntimeError
             [OStr "Telegram: ERROR - %s";
              OExn (OtherException "ConnectionError" "network unreachable")]).
Proof. reflexivity. Qed.

(** Without a webhook URL no keyboard is attached. *)
Example table_no_keyboard :
  ∀ m, sends (post_receive Sample.plain plugin Sample.opened) m →
       reply_markup m = None.
Proof.
  intros m Hs. unfold sends, calls in Hs. simpl in Hs.
  apply elem_of_cons in Hs as [Hs|Hs]; [discriminate Hs|].
  apply list_elem_of_singleton in Hs. by injection Hs as ->.
Qed.

End Table.

(** * Further properties *)

(** ** Import of the settings *)

Lemma append_cons c x b : String c x +:+ b = String c (x +:+ b).
Proof. reflexivity. Qed.

Lemma prefix_spec x s : String.prefix x s = true ↔ ∃ b, s = x +:+ b.
Proof.
  revert x. induction s as [|c' s IH]; intros [|c x]; simpl.
  - split; [by exists "" | done].
  - split; [done | intros [b Hb]; discriminate Hb].
  - split; [by eexists | done].
  - destruct (Ascii.ascii_dec c c') as [->|Hne].
    + rewrite IH. split; intros [b Hb]; exists b.
      * by rewrite Hb.
      * rewrite append_cons in Hb. by injection Hb.
    + split; [done | intros [b Hb]]. rewrite append_cons in Hb. congruence.
Qed.

Lemma substring_of_spec x s : substring_of x s = true ↔ occurs x s.
Proof.
  unfold occurs. induction s as [|c s IH].
  - change (substring_of x "") with (String.prefix x "" || false).
    rewrite orb_false_r, prefix_spec. split.
    + intros [b Hb]. by exists "", b.
    + intros ([|c a] & b & Hb); [by exists b | discriminate Hb].
  - change (substring_of x (String c s))
      with (String.prefix x (String c s) || substring_of x s).
    rewrite orb_true_iff, IH, prefix_spec. split.
    + intros [[b Hb] | (a & b & Hb)].
      * by exists "", b.
      * exists (String c a), b. by rewrite Hb.
    + intros ([|c' a] & b & Hb).
      * left. by exists b.
      * right. exists a, b. rewrite append_cons in Hb. by injection Hb.
Qed.


Lemma settings_of_Some g cfg :
  settings_of g = Some cfg →
  as_scalar (Py.TELEGRAM_CHAT_ID g) = Some (TELEGRAM_CHAT_ID cfg) ∧
  as_str (Py.TELEGRAM_WEBHOOK_URL g) = Some (TELEGRAM_WEBHOOK_URL cfg) ∧
  as_severities (Py.TELEGRAM_SOUND_NOTIFICATION_SEVERITY g)
    = Some (TELEGRAM_SOUND_NOTIFICATION_SEVERITY cfg) ∧
  as_severities (Py.TELEGRAM_FILTER_NOTIFICATION_SEVERITY g)
    = Some (TELEGRAM_FILTER_NOTIFICATION_SEVERITY cfg) ∧
  as_dict (Py.TELEGRAM_CHAT_ID_PER_CUSTOMER g)
    = Some (TELEGRAM_CHAT_ID_PER_CUSTOMER cfg).
Proof.
  unfold settings_of.
  destruct (as_scalar _), (as_str _),
    (as_severities (Py.TELEGRAM_SOUND_NOTIFICATION_SEVERITY g)),
    (as_severities (Py.TELEGRAM_FILTER_NOTIFICATION_SEVERITY g)),
    (as_dict _); simpl; try discriminate.
  by intros [= <-].
Qed.



(** X2.  The default [''] given for [DASHBOARD_URL] has no effect: the
    name is read like the others, and is [None] when neither [app.config]
    nor the environment defines it. *)
Theorem dashboard_default_unused config environ :
  Py.DASHBOARD_URL (load config environ)
  = py_or (config_get config "DASHBOARD_URL" PNone)
          (environ_get environ "DASHBOARD_URL") ∧
  (config !! "DASHBOARD_URL" = None → environ !! "DASHBOARD_URL" = None →
   Py.DASHBOARD_URL (load config environ) = PNone).
Proof.
  simpl. unfold config_get, environ_get.
  destruct (config !! "DASHBOARD_URL") as [v|]; simpl.
  - split; [done|]. discriminate.
  - split; [done|]. by intros _ ->.
Qed.

Lemma dashboard_default_unused_witness :
  Py.DASHBOARD_URL (load Site.config Site.environ)
  = py_or (config_get Site.config "DASHBOARD_URL" PNone)
          (environ_get Site.environ "DASHBOARD_URL") ∧
  (Site.config !! "DASHBOARD_URL" = None →
   Site.environ !! "DASHBOARD_URL" = None →
   Py.DASHBOARD_URL (load Site.config Site.environ) = PNone).
Proof. apply (dashboard_default_unused Site.config Site.environ). Defined.

(** X3.  The per-customer map is read from [app.config] alone.  When
    [app.config] does not define it, whatever the environment holds, the
    hook never calls [sendMessage]. *)
Theorem channel_map_not_from_environment config environ cfg self alert m :
  config !! "TELEGRAM_CHAT_ID_PER_CUSTOMER" = None →
  settings_of (load config environ) = Some cfg →
  ¬ sends (post_receive cfg self alert) m.
Proof.
  intros Hc Hs. apply settings_of_Some in Hs as (_ & _ & _ & _ & Hd).
  simpl in Hd. unfold config_get in Hd. rewrite Hc in Hd. simpl in Hd.
  intros Hm. apply sends_inv in Hm as (t & d & _ & Hm & _). congruence.
Qed.

Lemma channel_map_not_from_environment_witness :
  Site.environ !! "TELEGRAM_CHAT_ID_PER_CUSTOMER" = Some "{}" ∧
  ¬ sends (post_receive Site.settings
             {| bot := Sample.up; template := Sample.header |} Sample.opened)
      Sample.opened_message.
Proof.
  split; [reflexivity|].
  apply (channel_map_not_from_environment Site.config Site.environ);
    reflexivity.
Defined.

(** X4.  A filter given only in the environment is a string, and the hook
    searches it: an alert that is not a repeat and not closed with
    indeterminate previous severity is notified about exactly when its
    previous severity (closed) or its previous or current severity (other
    statuses) occurs somewhere in that string. *)
Theorem environment_filter_is_searched config environ s cfg self alert :
  py_bool (config_get config "TELEGRAM_FILTER_NOTIFICATION_SEVERITY" PNone)
    = false →
  environ !! "TELEGRAM_FILTER_NOTIFICATION_SEVERITY" = Some s →
  s ≠ "" →
  settings_of (load config environ) = Some cfg →
  repeat alert = false →
  ¬ (status alert = "closed" ∧ previous_severity alert = "indeterminate") →
  (status alert = "closed" →
   (notifies (post_receive cfg self alert)
    ↔ occurs (previous_severity alert) s)) ∧
  (status alert ≠ "closed" →
   (notifies (post_receive cfg self alert)
    ↔ occurs (previous_severity alert) s ∨ occurs (severity alert) s)).
Proof.
  intros Hc He Hs Hcfg Hr Hb.
  apply settings_of_Some in Hcfg as (_ & _ & _ & HF & _).
  simpl in HF. unfold py_or, environ_get in HF. rewrite Hc, He in HF.
  simpl in HF. injection HF as HF.
  split; intros Hst; rewrite notifies_passes, passes_filter_rules by done;
    rewrite <- HF; simpl; rewrite (bool_decide_eq_false_2 (s = "")) by done;
    simpl.
  - rewrite bool_decide_eq_true_2 by done. apply substring_of_spec.
  - rewrite bool_decide_eq_false_2 by done.
    by rewrite orb_true_iff, !substring_of_spec.
Qed.

Lemma environment_filter_is_searched_witness :
  (status Sample.opened = "closed" →
   (notifies (post_receive Site.settings
                {| bot := Sample.up; template := Sample.header |}
                Sample.opened)
    ↔ occurs (previous_severity Sample.opened) "critical,major")) ∧
  (status Sample.opened ≠ "closed" →
   (notifies (post_receive Site.settings
                {| bot := Sample.up; template := Sample.header |}
                Sample.opened)
    ↔ occurs (previous_severity Sample.opened) "critical,major"
      ∨ occurs (severity Sample.opened) "critical,major")).
Proof.
  apply (environment_filter_is_searched Site.config Site.environ
           "critical,major").
  - reflexivity.
  - reflexivity.
  - discriminate.
  - reflexivity.
  - reflexivity.
  - intros [H _]. discriminate H.
Defined.

(** ** Import: the proxy *)

Lemma setup_proxy_nil g :
  setup_proxy g = [] ↔ Py.TELEGRAM_PROXY g = PNone.
Proof.
  unfold setup_proxy.
  destruct (Py.TELEGRAM_PROXY g); simpl; try destruct (_ && _); done.
Qed.

Lemma py_or_environ_None a environ k :
  py_or a (environ_get environ k) = PNone
  ↔ py_bool a = false ∧ environ !! k = None.
Proof.
  unfold py_or, environ_get. destruct (py_bool a) eqn:Ha.
  - split; [intros ->; discriminate Ha | by intros [? _]].
  - destruct (environ !! k); simpl; split; try done. by intros [_ ?].
Qed.

(** X5.  [telepot]'s proxy is left alone exactly when [app.config] holds
    no truthy [TELEGRAM_PROXY] and the environment does not define the
    variable at all; an empty string in the environment still leads to a
    [set_proxy] call. *)
Theorem proxy_untouched_iff_unset config environ :
  setup_proxy (load config environ) = []
  ↔ py_bool (config_get config "TELEGRAM_PROXY" PNone) = false ∧
    environ !! "TELEGRAM_PROXY" = None.
Proof. rewrite setup_proxy_nil. apply py_or_environ_None. Qed.

Lemma proxy_untouched_iff_unset_witness :
  setup_proxy (load Site.proxied Site.environ) = []
  ↔ py_bool (config_get Site.proxied "TELEGRAM_PROXY" PNone) = false ∧
    Site.environ !! "TELEGRAM_PROXY" = None.
Proof. apply (proxy_untouched_iff_unset Site.proxied Site.environ). Defined.

(** X6.  Whatever the names hold, [set_proxy] is called at most once, with
    [TELEGRAM_PROXY], which then is not [None]; user name and password are
    passed only together and only when the three names are all truthy, so
    a user name without a password is dropped. *)
Theorem proxy_credentials_complete g :
  length (setup_proxy g) ≤ 1 ∧
  ∀ url auth,
    set_proxy url auth ∈ setup_proxy g →
    url = Py.TELEGRAM_PROXY g ∧
    url ≠ PNone ∧
    auth = (if py_bool (Py.TELEGRAM_PROXY g) &&
               py_bool (Py.TELEGRAM_PROXY_USERNAME g) &&
               py_bool (Py.TELEGRAM_PROXY_PASSWORD g)
            then Some (Py.TELEGRAM_PROXY_USERNAME g,
                       Py.TELEGRAM_PROXY_PASSWORD g)
            else None).
Proof.
  unfold setup_proxy. simpl. rewrite andb_true_r, andb_assoc.
  generalize (Py.TELEGRAM_PROXY g) (Py.TELEGRAM_PROXY_USERNAME g)
    (Py.TELEGRAM_PROXY_PASSWORD g).
  intros P U W.
  destruct (py_bool P && py_bool U && py_bool W) eqn:Hall.
  - split; [simpl; lia|]. intros url auth Hin.
    apply list_elem_of_singleton in Hin. injection Hin as -> ->.
    split_and!; [done| |done]. intros ->. discriminate Hall.
  - destruct (is_None P) eqn:Hn; simpl.
    + split; [lia|]. intros url auth Hin. by apply not_elem_of_nil in Hin.
    + split; [lia|]. intros url auth Hin.
      apply list_elem_of_singleton in Hin. injection Hin as -> ->.
      split_and!; [done| |done]. intros ->. discriminate Hn.
Qed.

Lemma proxy_credentials_complete_witness :
  length (setup_proxy (load Site.config Site.environ)) ≤ 1 ∧
  ∀ url auth,
    set_proxy url auth ∈ setup_proxy (load Site.config Site.environ) →
    url = Py.TELEGRAM_PROXY (load Site.config Site.environ) ∧
    url ≠ PNone ∧
    auth = (if py_bool (Py.TELEGRAM_PROXY (load Site.config Site.environ)) &&
               py_bool (Py.TELEGRAM_PROXY_USERNAME
                          (load Site.config Site.environ)) &&
               py_bool (Py.TELEGRAM_PROXY_PASSWORD
                          (load Site.config Site.environ))
            then Some (Py.TELEGRAM_PROXY_USERNAME
                         (load Site.config Site.environ),
                       Py.TELEGRAM_PROXY_PASSWORD
                         (load Site.config Site.environ))
            else None).
Proof. apply (proxy_credentials_complete (load Site.config Site.environ)). Defined.

Example proxy_partial_credentials :
  setup_proxy (load Site.config Site.environ) = [set_proxy (PStr "") None] ∧
  setup_proxy (load Site.proxied ∅)
  = [set_proxy (PStr "http://proxy:3128") (Some (PStr "ops", PStr "secret"))].
Proof. split; reflexivity. Qed.

(** ** The constructor *)

Lemma made_bind {A B} (m : I A) (k : A → I B) :
  made (m ≫= k)
  = made m ++ match ended m with
              | Returns a => made (k a)
              | Raises _ => []
              end.
Proof.
  unfold mbind, I_bind. destruct m as [cs [a|e]]; simpl.
  - by destruct (k a).
  - by rewrite app_nil_r.
Qed.

Lemma ended_bind {A B} (m : I A) (k : A → I B) :
  ended (m ≫= k)
  = match ended m with
    | Returns a => ended (k a)
    | Raises e => Raises e
    end.
Proof.
  unfold mbind, I_bind. destruct m as [cs [a|e]]; simpl; [|done].
  by destruct (k a).
Qed.

(** The constructor is its three parts in a row. *)
Lemma init_blocks host token tmpl cfg :
  __init__ host token tmpl cfg
  = (ask bot_getMe (getMe host) ;;
     webhook_block host cfg ;;
     template ← template_block host tmpl ;
     mret {| bot := telepot_Bot host token; template := template |}).
Proof. reflexivity. Qed.

Lemma truthy_str_Some o :
  truthy_str o = true ↔ ∃ s, o = Some s ∧ s ≠ "".
Proof.
  destruct o as [s|]; simpl.
  - rewrite negb_true_iff, bool_decide_eq_false.
    split; [intros H; by exists s | by intros (s' & [= <-] & H)].
  - split; [done | by intros (s & H & _)].
Qed.

(** Membership in a list that is written out. *)
Ltac member_cases H :=
  repeat (apply elem_of_cons in H as [H|H]);
  [ .. | by apply not_elem_of_nil in H ].

(** The webhook part only talks to the bot ... *)
Lemma webhook_block_calls host cfg c :
  c ∈ made (webhook_block host cfg) →
  c = bot_getWebhookInfo ∨ ∃ u, c = bot_setWebhook u.
Proof.
  unfold webhook_block, subscript.
  destruct (truthy_str _); simpl; [|by intros ?%not_elem_of_nil].
  destruct (getWebhookInfo host 0) as [info|e]; simpl;
    [destruct (info !! "url") as [v|]; simpl;
     [destruct (negb _); simpl;
      [destruct (setWebhook host _); simpl;
       [destruct (getWebhookInfo host 1); simpl|]|]|]|].
  all: intros Hin; member_cases Hin; subst; eauto.
Qed.

(** ... and the template part only to the file system and the compiler. *)
Lemma template_block_calls host tmpl c :
  c ∈ made (template_block host tmpl) →
  (∃ p, c = os_path_exists p) ∨ (∃ p, c = file_read p) ∨
  ∃ src, c = Template_new src.
Proof.
  unfold template_block.
  destruct (truthy_str _); simpl;
    [destruct (path_exists host _); simpl;
     [destruct (read host _); simpl|]|].
  all: intros Hin; member_cases Hin; subst; eauto.
Qed.

(** When the webhook is changed. *)
Lemma webhook_block_setWebhook host cfg u :
  bot_setWebhook u ∈ made (webhook_block host cfg)
  ↔ TELEGRAM_WEBHOOK_URL cfg = Some u ∧ u ≠ "" ∧
    ∃ info v, getWebhookInfo host 0 = Returns info ∧
              info !! "url" = Some v ∧ v ≠ VStr u.
Proof.
  unfold webhook_block, subscript.
  destruct (truthy_str (TELEGRAM_WEBHOOK_URL cfg)) eqn:Ht; cycle 1.
  { simpl. split; [by intros ?%not_elem_of_nil|]. intros (Hu & Hne & _).
    rewrite Hu in Ht. simpl in Ht. by rewrite bool_decide_eq_false_2 in Ht. }
  apply truthy_str_Some in Ht as (s & -> & Hs). simpl.
  destruct (getWebhookInfo host 0) as [info|e]; simpl; cycle 1.
  { split; [intros Hin; member_cases Hin; discriminate Hin|].
    intros (_ & _ & info' & v' & Hi & _). discriminate Hi. }
  destruct (info !! "url") as [v|] eqn:Hl; simpl; cycle 1.
  { split; [intros Hin; member_cases Hin; discriminate Hin|].
    intros (_ & _ & info' & v' & [= <-] & Hl' & _). congruence. }
  case_bool_decide as Hv; simpl.
  { split; [intros Hin; member_cases Hin; discriminate Hin|].
    intros ([= ->] & _ & info' & v' & [= <-] & Hl' & Hne). congruence. }
  split.
  - intros Hin.
    assert (u = s) as ->.
    { destruct (setWebhook host s); simpl in Hin;
        [destruct (getWebhookInfo host 1); simpl in Hin|].
      all: member_cases Hin; congruence. }
    split_and!; [done..|]. exists info, v. split_and!; [done..|]. congruence.
  - intros ([= ->] & _).
    destruct (setWebhook host u); simpl;
      [destruct (getWebhookInfo host 1); simpl|].
    all: apply list_elem_of_further, list_elem_of_here.
Qed.

(** X7.  When the identity check [getMe] fails, the constructor fails with
    that exception and has done nothing else: the webhook is not looked
    at, no file is read and no template compiled. *)
Theorem init_fails_with_getMe host token tmpl cfg e :
  getMe host = Raises e →
  __init__ host token tmpl cfg = Run [bot_getMe] (Raises e).
Proof. intros He. unfold __init__. by rewrite He. Qed.

Lemma init_fails_with_getMe_witness :
  __init__ Site.down (PStr "123:abc") (Some "/etc/alerta/telegram.j2")
    Sample.watched
  = Run [bot_getMe]
      (Raises (OtherException "ConnectionError" "network unreachable")).
Proof.
  apply (init_fails_with_getMe Site.down (PStr "123:abc")
           (Some "/etc/alerta/telegram.j2") Sample.watched).
  reflexivity.
Defined.

(** The calls of the constructor once [getMe] has answered. *)
Lemma init_made host token tmpl cfg me :
  getMe host = Returns me →
  made (__init__ host token tmpl cfg)
  = bot_getMe :: made (webhook_block host cfg) ++
      match ended (webhook_block host cfg) with
      | Returns _ => made (template_block host tmpl)
      | Raises _ => []
      end.
Proof.
  intros Hme. rewrite init_blocks, made_bind. unfold ask at 1 2.
  rewrite Hme. cbn [made ended app]. f_equal.
  rewrite made_bind. f_equal.
  destruct (ended (webhook_block host cfg)); [|done].
  rewrite made_bind.
  destruct (ended (template_block host tmpl)); simpl; by rewrite app_nil_r.
Qed.

(** X8.  Once [getMe] has answered, the constructor calls [setWebhook]
    with [u] exactly when [u] is the configured, non-empty webhook URL and
    Telegram reports another URL as registered; a URL that is registered
    already is not registered again. *)
Theorem init_sets_webhook_when_it_differs host token tmpl cfg me u :
  getMe host = Returns me →
  bot_setWebhook u ∈ made (__init__ host token tmpl cfg)
  ↔ TELEGRAM_WEBHOOK_URL cfg = Some u ∧ u ≠ "" ∧
    ∃ info v, getWebhookInfo host 0 = Returns info ∧
              info !! "url" = Some v ∧ v ≠ VStr u.
Proof.
  intros Hme. rewrite <- webhook_block_setWebhook.
  rewrite (init_made _ _ _ _ _ Hme), elem_of_cons, elem_of_app.
  split; [|by auto].
  intros [Hin | [Hin | Hin]]; [discriminate Hin | done |].
  destruct (ended (webhook_block host cfg));
    [|by apply not_elem_of_nil in Hin].
  apply template_block_calls in Hin as [[p Hp] | [[p Hp] | [src Hp]]];
    discriminate Hp.
Qed.

Lemma init_sets_webhook_when_it_differs_witness :
  bot_setWebhook "https://alerta.example/telegram"
    ∈ made (__init__ Site.host (PStr "123:abc") None Sample.watched)
  ↔ TELEGRAM_WEBHOOK_URL Sample.watched
      = Some "https://alerta.example/telegram" ∧
    "https://alerta.example/telegram" ≠ "" ∧
    ∃ info v, getWebhookInfo Site.host 0 = Returns info ∧
              info !! "url" = Some v ∧
              v ≠ VStr "https://alerta.example/telegram".
Proof.
  apply (init_sets_webhook_when_it_differs Site.host (PStr "123:abc") None
           Sample.watched {[ "username" := VStr "alerta_bot" ]}).
  reflexivity.
Defined.

(** X9.  Without a webhook URL (unset or empty) the constructor neither
    asks Telegram for the registered webhook nor changes it. *)
Theorem init_without_webhook_url host token tmpl cfg :
  truthy_str (TELEGRAM_WEBHOOK_URL cfg) = false →
  (bot_getWebhookInfo ∉ made (__init__ host token tmpl cfg)) ∧
  (∀ u, bot_setWebhook u ∉ made (__init__ host token tmpl cfg)).
Proof.
  intros Hu.
  assert (∀ c, c ∈ made (__init__ host token tmpl cfg) →
               c ≠ bot_getWebhookInfo ∧ ∀ u, c ≠ bot_setWebhook u) as Hall.
  { intros c Hin. destruct (getMe host) as [me|e] eqn:Hme.
    - rewrite (init_made _ _ _ _ _ Hme) in Hin.
      unfold webhook_block in Hin. rewrite Hu in Hin. simpl in Hin.
      apply elem_of_cons in Hin as [-> | Hin]; [done|].
      apply template_block_calls in Hin as [[p ->] | [[p ->] | [src ->]]];
        done.
    - unfold __init__ in Hin. rewrite Hme in Hin. simpl in Hin.
      apply list_elem_of_singleton in Hin as ->. done. }
  split.
  - intros Hin. by apply Hall in Hin as [? _].
  - intros u Hin. apply Hall in Hin as [_ Hne]. by apply (Hne u).
Qed.

Lemma init_without_webhook_url_witness :
  (bot_getWebhookInfo
     ∉ made (__init__ Site.host (PStr "123:abc") None Sample.plain)) ∧
  (∀ u, bot_setWebhook u
          ∉ made (__init__ Site.host (PStr "123:abc") None Sample.plain)).
Proof.
  apply (init_without_webhook_url Site.host (PStr "123:abc") None
           Sample.plain).
  reflexivity.
Defined.

(** How the constructor ends once [getMe] has answered. *)
Lemma init_ended host token tmpl cfg me :
  getMe host = Returns me →
  ended (__init__ host token tmpl cfg)
  = match ended (webhook_block host cfg) with
    | Returns _ =>
        match ended (template_block host tmpl) with
        | Returns t =>
            Returns {| bot := telepot_Bot host token; template := t |}
        | Raises e => Raises e
        end
    | Raises e => Raises e
    end.
Proof.
  intros Hme. rewrite init_blocks, ended_bind. unfold ask at 1.
  rewrite Hme. cbn [ended]. rewrite ended_bind.
  destruct (ended (webhook_block host cfg)); [|done].
  by rewrite ended_bind.
Qed.

(** X10.  A plugin the constructor returns holds the bot made from the
    token and the template compiled from: the built-in default when no
    template is configured (unset or empty); the text of the setting
    itself when it names no existing path; the contents of the file when
    it does. *)
Theorem init_template_source host token tmpl cfg self :
  ended (__init__ host token tmpl cfg) = Returns self →
  bot self = telepot_Bot host token ∧
  ∃ source,
    jinja2_Template host source = Returns (template self) ∧
    (truthy_str tmpl = false → source = DEFAULT_TMPL) ∧
    (∀ p, tmpl = Some p → p ≠ "" → path_exists host p = false →
          source = p) ∧
    (∀ p, tmpl = Some p → p ≠ "" → path_exists host p = true →
          read host p = Returns source).
Proof.
  intros Hend.
  destruct (getMe host) as [me|e] eqn:Hme; cycle 1.
  { unfold __init__ in Hend. rewrite Hme in Hend. discriminate Hend. }
  rewrite (init_ended _ _ _ _ _ Hme) in Hend.
  destruct (ended (webhook_block host cfg)); [|discriminate Hend].
  destruct (ended (template_block host tmpl)) as [t|] eqn:Ht;
    [|discriminate Hend].
  injection Hend as <-. split; [done|]. simpl.
  unfold template_block in Ht.
  destruct (truthy_str tmpl) eqn:Htr.
  - apply truthy_str_Some in Htr as (p & -> & Hp). simpl in Ht.
    destruct (path_exists host p) eqn:Hex; simpl in Ht.
    + destruct (read host p) as [source|] eqn:Hrd; simpl in Ht;
        [|discriminate Ht].
      exists source. split_and!; [done|done| |].
      * intros p' [= <-]. congruence.
      * by intros p' [= <-].
    + exists p. split_and!; [done|done| |].
      * by intros p' [= <-].
      * intros p' [= <-]. congruence.
  - simpl in Ht. exists DEFAULT_TMPL. split_and!; [done|done| |].
    + intros p -> Hp. simpl in Htr. by rewrite bool_decide_eq_false_2 in Htr.
    + intros p -> Hp. simpl in Htr. by rewrite bool_decide_eq_false_2 in Htr.
Qed.

Lemma init_template_source_witness :
  bot {| bot := Sample.up; template := Sample.header |}
  = telepot_Bot Site.host (PStr "123:abc") ∧
  ∃ source,
    jinja2_Template Site.host source
    = Returns (template {| bot := Sample.up; template := Sample.header |}) ∧
    (truthy_str (Some "/etc/alerta/telegram.j2") = false →
     source = DEFAULT_TMPL) ∧
    (∀ p, Some "/etc/alerta/telegram.j2" = Some p → p ≠ "" →
          path_exists Site.host p = false → source = p) ∧
    (∀ p, Some "/etc/alerta/telegram.j2" = Some p → p ≠ "" →
          path_exists Site.host p = true →
          read Site.host p = Returns source).
Proof.
  apply (init_template_source Site.host (PStr "123:abc")
           (Some "/etc/alerta/telegram.j2") Sample.watched).
  reflexivity.
Defined.

(** X11.  When the template setting names an existing path that cannot be
    read (a directory, say), the constructor fails; it does not fall back
    to the text of the setting or to the default template: no template is
    compiled. *)
Theorem init_unreadable_template host token cfg p e :
  p ≠ "" →
  path_exists host p = true →
  read host p = Raises e →
  (∃ e', ended (__init__ host token (Some p) cfg) = Raises e') ∧
  (∀ source, Template_new source ∉ made (__init__ host token (Some p) cfg)) ∧
  (∀ me, getMe host = Returns me →
         ended (webhook_block host cfg) = Returns tt →
         ended (__init__ host token (Some p) cfg) = Raises e).
Proof.
  intros Hp Hex Hrd.
  assert (template_block host (Some p)
          = Run [os_path_exists p; file_read p] (Raises e)) as Ht.
  { unfold template_block. simpl. rewrite bool_decide_eq_false_2 by done.
    simpl. rewrite Hex. simpl. by rewrite Hrd. }
  destruct (getMe host) as [me|e0] eqn:Hme; cycle 1.
  { unfold __init__. rewrite Hme. simpl. split_and!.
    - by eexists.
    - intros source Hin. apply list_elem_of_singleton in Hin. discriminate Hin.
    - discriminate. }
  rewrite (init_ended _ _ _ _ _ Hme), (init_made _ _ _ _ _ Hme), Ht.
  simpl. split_and!.
  - destruct (ended (webhook_block host cfg)); by eexists.
  - intros source Hin. apply elem_of_cons in Hin as [Hin|Hin];
      [discriminate Hin|].
    apply elem_of_app in Hin as [Hin|Hin].
    + apply webhook_block_calls in Hin as [Hin | [u Hin]]; discriminate Hin.
    + destruct (ended (webhook_block host cfg));
        member_cases Hin; discriminate Hin.
  - by intros me' _ ->.
Qed.

Lemma init_unreadable_template_witness :
  (∃ e', ended (__init__ Site.unreadable (PStr "123:abc")
                  (Some "/etc/alerta/telegram.j2") Sample.plain)
         = Raises e') ∧
  (∀ source,
     Template_new source
       ∉ made (__init__ Site.unreadable (PStr "123:abc")
                 (Some "/etc/alerta/telegram.j2") Sample.plain)) ∧
  (∀ me, getMe Site.unreadable = Returns me →
         ended (webhook_block Site.unreadable Sample.plain) = Returns tt →
         ended (__init__ Site.unreadable (PStr "123:abc")
                  (Some "/etc/alerta/telegram.j2") Sample.plain)
         = Raises (OtherException "IsADirectoryError"
                     "/etc/alerta/telegram.j2")).
Proof.
  apply (init_unreadable_template Site.unreadable (PStr "123:abc")
           Sample.plain "/etc/alerta/telegram.j2").
  - discriminate.
  - reflexivity.
  - reflexivity.
Defined.

(** X12.  The constructor looks at the webhook once more after changing
    it, for the log.  When that second call fails, the constructor fails
    although the new webhook is registered, and no template is loaded. *)
Theorem init_fails_after_setWebhook host token tmpl cfg me u info v ok e :
  getMe host = Returns me →
  TELEGRAM_WEBHOOK_URL cfg = Some u →
  u ≠ "" →
  getWebhookInfo host 0 = Returns info →
  info !! "url" = Some v →
  v ≠ VStr u →
  setWebhook host u = Returns ok →
  getWebhookInfo host 1 = Raises e →
  __init__ host token tmpl cfg
  = Run [bot_getMe; bot_getWebhookInfo; bot_setWebhook u; bot_getWebhookInfo]
        (Raises e).
Proof.
  intros Hme Hu Hne H0 Hl Hv Hset H1.
  unfold __init__, subscript. rewrite Hme, Hu. simpl.
  rewrite bool_decide_eq_false_2 by done. simpl.
  rewrite H0. simpl. rewrite Hl. simpl.
  rewrite bool_decide_eq_false_2 by congruence. simpl.
  rewrite Hset. simpl. by rewrite H1.
Qed.

Lemma init_fails_after_setWebhook_witness :
  __init__ Site.flaky (PStr "123:abc") None Sample.watched
  = Run [bot_getMe; bot_getWebhookInfo;
         bot_setWebhook "https://alerta.example/telegram";
         bot_getWebhookInfo]
        (Raises (OtherException "ReadTimeoutError" "timed out")).
Proof.
  apply (init_fails_after_setWebhook Site.flaky (PStr "123:abc") None
           Sample.watched {[ "username" := VStr "alerta_bot" ]}
           "https://alerta.example/telegram"
           {[ "url" := VStr "https://old.example/hook" ]}
           (VStr "https://old.example/hook") (VBool true)).
  - reflexivity.
  - reflexivity.
  - discriminate.
  - reflexivity.
  - reflexivity.
  - discriminate.
  - reflexivity.
  - reflexivity.
Defined.

(** When the webhook part raises, and what. *)
Lemma webhook_block_raises_iff host cfg e :
  ended (webhook_block host cfg) = Raises e
  ↔ ∃ u, TELEGRAM_WEBHOOK_URL cfg = Some u ∧ u ≠ "" ∧
      (getWebhookInfo host 0 = Raises e ∨
       ∃ info, getWebhookInfo host 0 = Returns info ∧
         ((info !! "url" = None ∧ e = KeyError "url") ∨
          ∃ v, info !! "url" = Some v ∧ v ≠ VStr u ∧
            (setWebhook host u = Raises e ∨
             ∃ ok, setWebhook host u = Returns ok ∧
                   getWebhookInfo host 1 = Raises e))).
Proof.
  unfold webhook_block, subscript.
  destruct (truthy_str (TELEGRAM_WEBHOOK_URL cfg)) eqn:Ht; cycle 1.
  { simpl. split; [discriminate|]. intros (u & Hu & Hne & _).
    rewrite Hu in Ht. simpl in Ht. by rewrite bool_decide_eq_false_2 in Ht. }
  apply truthy_str_Some in Ht as (s & -> & Hs). simpl.
  destruct (getWebhookInfo host 0) as [info|e0]; simpl; cycle 1.
  { split.
    - intros [= <-]. exists s. split_and!; [done..|]. by left.
    - intros (u & [= <-] & _ & [[= <-] | (info & Hi & _)]);
        [done | discriminate Hi]. }
  destruct (info !! "url") as [v|] eqn:Hl; simpl; cycle 1.
  { split.
    - intros [= <-]. exists s. split_and!; [done..|]. right.
      exists info. split; [done|]. by left.
    - intros (u & [= <-] & _ & [Hi | (info' & [= <-] & Hc)]);
        [discriminate Hi|].
      destruct Hc as [[_ ->] | (v & Hv & _)]; [done | congruence]. }
  case_bool_decide as Hv; simpl.
  { split; [discriminate|].
    intros (u & [= <-] & _ & [Hi | (info' & [= <-] & Hc)]);
      [discriminate Hi|].
    destruct Hc as [[Hn _] | (v' & Hv' & Hne & _)]; congruence. }
  assert (v ≠ VStr s) as Hv' by congruence.
  destruct (setWebhook host s) as [ok|e1] eqn:Hset; simpl; cycle 1.
  { split.
    - intros [= <-]. exists s. split_and!; [done..|]. right.
      exists info. split; [done|]. right. exists v. split_and!; [done..|].
      by left.
    - intros (u & [= <-] & _ & [Hi | (info' & [= <-] & Hc)]);
        [discriminate Hi|].
      destruct Hc as [[Hn _] | (v' & _ & _ & [He | (ok & Hok & _)])];
        congruence. }
  destruct (getWebhookInfo host 1) as [info1|e2] eqn:H1; simpl.
  - split; [discriminate|].
    intros (u & [= <-] & _ & [Hi | (info' & [= <-] & Hc)]);
      [discriminate Hi|].
    destruct Hc as [[Hn _] | (v' & _ & _ & [He | (ok' & _ & He)])];
      congruence.
  - split.
    + intros [= <-]. exists s. split_and!; [done..|]. right.
      exists info. split; [done|]. right. exists v. split_and!; [done..|].
      right. by exists ok.
    + intros (u & [= <-] & _ & [Hi | (info' & [= <-] & Hc)]);
        [discriminate Hi|].
      destruct Hc as [[Hn _] | (v' & _ & _ & [He | (ok' & _ & He)])];
        congruence.
Qed.

(** When the template part raises, and what. *)
Lemma template_block_raises_iff host tmpl e :
  ended (template_block host tmpl) = Raises e
  ↔ (truthy_str tmpl = false ∧
     jinja2_Template host DEFAULT_TMPL = Raises e) ∨
    ∃ p, tmpl = Some p ∧ p ≠ "" ∧
      ((path_exists host p = false ∧ jinja2_Template host p = Raises e) ∨
       (path_exists host p = true ∧
        (read host p = Raises e ∨
         ∃ source, read host p = Returns source ∧
                   jinja2_Template host source = Raises e))).
Proof.
  unfold template_block.
  destruct (truthy_str tmpl) eqn:Ht; cycle 1.
  { simpl. split; [by left|].
    intros [[_ He] | (p & -> & Hp & _)]; [done|].
    simpl in Ht. by rewrite bool_decide_eq_false_2 in Ht. }
  apply truthy_str_Some in Ht as (p & -> & Hp). simpl.
  destruct (path_exists host p) eqn:Hex; simpl.
  - destruct (read host p) as [source|e0] eqn:Hrd; simpl.
    + split.
      * intros He. right. exists p. split_and!; [done..|]. right.
        split; [done|]. right. by exists source.
      * intros [[? _] | (p' & [= <-] & _ & [[? _] | [_ [? | (s & ? & ?)]]])];
          congruence.
    + split.
      * intros [= <-]. right. exists p. split_and!; [done..|]. right.
        split; [done|]. by left.
      * intros [[? _] | (p' & [= <-] & _ & [[? _] | [_ [? | (s & ? & ?)]]])];
          congruence.
  - split.
    + intros He. right. exists p. split_and!; [done..|]. by left.
    + intros [[? _] | (p' & [= <-] & _ & [[_ ?] | [? _]])]; congruence.
Qed.

(** X21.  The constructor has no handler.  It raises exactly when one of
    the calls it makes raises, and then that call's exception: [getMe];
    with a webhook URL [u] configured, the first [getWebhookInfo], the
    [setWebhook u] made when the registered URL differs, or the second
    [getWebhookInfo] after it; once the webhook part is through, the
    reading of the template file or the compilation of the source it
    chose.  The one exception of its own is the [KeyError] for a webhook
    answer without ['url']. *)
Theorem init_raises host token tmpl cfg e :
  ended (__init__ host token tmpl cfg) = Raises e
  ↔ getMe host = Raises e ∨
    ((∃ me, getMe host = Returns me) ∧
     ((∃ u, TELEGRAM_WEBHOOK_URL cfg = Some u ∧ u ≠ "" ∧
         (getWebhookInfo host 0 = Raises e ∨
          ∃ info, getWebhookInfo host 0 = Returns info ∧
            ((info !! "url" = None ∧ e = KeyError "url") ∨
             ∃ v, info !! "url" = Some v ∧ v ≠ VStr u ∧
               (setWebhook host u = Raises e ∨
                ∃ ok, setWebhook host u = Returns ok ∧
                      getWebhookInfo host 1 = Raises e)))) ∨
      (ended (webhook_block host cfg) = Returns tt ∧
       ((truthy_str tmpl = false ∧
         jinja2_Template host DEFAULT_TMPL = Raises e) ∨
        ∃ p, tmpl = Some p ∧ p ≠ "" ∧
          ((path_exists host p = false ∧
            jinja2_Template host p = Raises e) ∨
           (path_exists host p = true ∧
            (read host p = Raises e ∨
             ∃ source, read host p = Returns source ∧
                       jinja2_Template host source = Raises e))))))).
Proof.
  rewrite <- webhook_block_raises_iff, <- template_block_raises_iff.
  destruct (getMe host) as [me|e0] eqn:Hme; cycle 1.
  { unfold __init__. rewrite Hme. simpl. split.
    - intros [= <-]. by left.
    - intros [[= <-] | [[me Hme'] _]]; [done | discriminate Hme']. }
  rewrite (init_ended _ _ _ _ _ Hme).
  destruct (ended (webhook_block host cfg)) as [[]|e1].
  - destruct (ended (template_block host tmpl)) as [t|e2].
    + split; [discriminate|].
      intros [? | [_ [? | [_ ?]]]]; discriminate.
    + split.
      * intros [= <-]. right. split; [by eexists|]. by right.
      * intros [? | [_ [? | [_ ?]]]]; congruence.
  - split.
    + intros [= <-]. right. split; [by eexists|]. by left.
    + intros [? | [_ [? | [? _]]]]; congruence.
Qed.

Lemma init_raises_witness :
  ended (__init__ Site.unreadable (PStr "123:abc")
           (Some "/etc/alerta/telegram.j2") Sample.plain)
  = Raises (OtherException "IsADirectoryError" "/etc/alerta/telegram.j2").
Proof.
  apply (init_raises Site.unreadable (PStr "123:abc")
           (Some "/etc/alerta/telegram.j2") Sample.plain).
  right. split; [by eexists|]. right. split; [reflexivity|]. right.
  exists "/etc/alerta/telegram.j2". split; [reflexivity|].
  split; [discriminate|]. right. split; [reflexivity|]. by left.
Defined.

(** ** More about the hook *)

(** The message of the one [sendMessage] call, field by field. *)
Lemma post_receive_message cfg self alert t d :
  passes_filter cfg alert = true →
  binds_text self alert t →
  TELEGRAM_CHAT_ID_PER_CUSTOMER cfg = Some d →
  calls (post_receive cfg self alert)
  = [template_render alert;
     bot_sendMessage
       {| chat_id :=
            default (TELEGRAM_CHAT_ID cfg) (customer alert ≫= (d !!.));
          msg_text := t;
          parse_mode := "Markdown";
          disable_notification :=
            truthy (TELEGRAM_SOUND_NOTIFICATION_SEVERITY cfg) &&
            negb (py_in (severity alert)
                        (TELEGRAM_SOUND_NOTIFICATION_SEVERITY cfg));
          reply_markup :=
            if truthy_str (TELEGRAM_WEBHOOK_URL cfg) then
              Some {| inline_keyboard := [[
                {| btn_text := "ack";
                   callback_data := "/ack " +:+ id alert |};
                {| btn_text := "close";
                   callback_data := "/close " +:+ id alert |};
                {| btn_text := "blackout";
                   callback_data := "/blackout " +:+ id alert |} ]] |}
            else None |}].
Proof.
  intros Hp Ht Hm. unfold post_receive.
  past_filter Hp.
  all: destruct Ht as [t Hr | msg Hr]; rewrite Hr, Hm.
  all: destruct (customer alert) as [c|]; [destruct (d !! c) eqn:Hd|].
  all: run_block; rewrite ?Hd; simpl.
  all: destruct (truthy (TELEGRAM_SOUND_NOTIFICATION_SEVERITY cfg)),
         (py_in (severity alert) (TELEGRAM_SOUND_NOTIFICATION_SEVERITY cfg)).
  all: match goal with
       | |- context [sendMessage ?b ?m] => destruct (sendMessage b m) as [?|[]]
       end; reflexivity.
Qed.

(** X13.  A run of the hook makes no call at all, or renders the template
    and stops, or renders the template and then calls [sendMessage] once:
    nothing is sent twice, and nothing is sent that was not rendered
    first. *)
Theorem hook_calls_in_order cfg self alert :
  calls (post_receive cfg self alert) = [] ∨
  calls (post_receive cfg self alert) = [template_render alert] ∨
  ∃ m, calls (post_receive cfg self alert)
       = [template_render alert; bot_sendMessage m].
Proof.
  destruct (passes_filter cfg alert) eqn:Hp; cycle 1.
  { left. by rewrite post_receive_filtered. }
  right.
  destruct (render_cases self alert) as [[t Ht] | (e & Hr & Hne)]; cycle 1.
  { left. by rewrite (post_receive_render_raises _ _ _ _ Hp Hr Hne). }
  destruct (TELEGRAM_CHAT_ID_PER_CUSTOMER cfg) as [d|] eqn:Hm.
  - right. rewrite (post_receive_message _ _ _ _ _ Hp Ht Hm). by eexists.
  - left. by rewrite (post_receive_unmapped _ _ _ _ Hp Ht Hm).
Qed.

(** X14.  Only [UndefinedError] is recovered from.  When the template
    raises anything else for an alert that got past the filter, that
    exception leaves the hook as it is and nothing is sent. *)
Theorem template_error_aborts cfg self alert e :
  notifies (post_receive cfg self alert) →
  render (template self) alert = Raises e →
  (∀ msg, e ≠ UndefinedError msg) →
  outcome (post_receive cfg self alert) = Raise e ∧
  ∀ m, ¬ sends (post_receive cfg self alert) m.
Proof.
  intros Hn Hr Hne. apply notifies_passes in Hn.
  unfold sends. rewrite (post_receive_render_raises _ _ _ _ Hn Hr Hne).
  split; [done|]. intros m Hin.
  apply list_elem_of_singleton in Hin. discriminate Hin.
Qed.

Lemma template_error_aborts_witness :
  outcome (post_receive Sample.plain
             {| bot := Sample.up;
                template := {| render _ :=
                  Raises (TypeError "can only concatenate str") |} |}
             Sample.opened)
  = Raise (TypeError "can only concatenate str") ∧
  ∀ m, ¬ sends (post_receive Sample.plain
                  {| bot := Sample.up;
                     template := {| render _ :=
                       Raises (TypeError "can only concatenate str") |} |}
                  Sample.opened) m.
Proof.
  apply (template_error_aborts Sample.plain
           {| bot := Sample.up;
              template := {| render _ :=
                Raises (TypeError "can only concatenate str") |} |}
           Sample.opened).
  - exists Sample.opened. apply list_elem_of_here.
  - reflexivity.
  - discriminate.
Defined.

(** X15.  The hook raises exactly in three cases, all for an alert that
    passes the filter: the template raised something other than
    [UndefinedError], which is passed on unchanged; the per-customer map
    is unset, and the generic handler wraps the [TypeError] of the
    membership test; the [sendMessage] call raised, and the handler for
    its exception wraps it.  It raises nothing else. *)
Theorem hook_raises cfg self alert e :
  outcome (post_receive cfg self alert) = Raise e
  ↔ passes_filter cfg alert = true ∧
    ((render (template self) alert = Raises e ∧
      ∀ msg, e ≠ UndefinedError msg) ∨
     ((∃ t, binds_text self alert t) ∧
      ((TELEGRAM_CHAT_ID_PER_CUSTOMER cfg = None ∧
        e = delivery_error
              (TypeError "argument of type 'NoneType' is not iterable")) ∨
       ∃ m e0, sends (post_receive cfg self alert) m ∧
               sendMessage (bot self) m = Raises e0 ∧
               e = delivery_error e0))).
Proof.
  destruct (passes_filter cfg alert) eqn:Hp; cycle 1.
  { rewrite post_receive_filtered by done.
    split; [discriminate | by intros [? _]]. }
  destruct (render_cases self alert) as [[t Ht] | (e' & Hr & Hne)]; cycle 1.
  { rewrite (post_receive_render_raises _ _ _ _ Hp Hr Hne).
    unfold outcome. simpl. split.
    - intros [= <-]. split; [done|]. by left.
    - intros [_ [[Hr' _] | [[t Ht] _]]]; [congruence|].
      destruct Ht as [t Ht | msg Ht]; rewrite Hr in Ht;
        [discriminate Ht | injection Ht as ->].
      by destruct (Hne msg). }
  assert (∀ e1, render (template self) alert = Raises e1 →
                ∃ msg, e1 = UndefinedError msg) as Hund.
  { intros e1 Hr. destruct Ht as [t Ht | msg Ht]; rewrite Hr in Ht;
      [discriminate Ht | injection Ht as ->; by eexists]. }
  destruct (TELEGRAM_CHAT_ID_PER_CUSTOMER cfg) as [d|] eqn:Hm.
  - destruct (post_receive_dispatch _ _ _ _ _ Hp Ht Hm)
      as (m & _ & _ & _ & _ & Hrun).
    unfold sends. rewrite Hrun. unfold outcome, calls. simpl. split.
    + destruct (sendMessage (bot self) m) as [?|e0] eqn:Hsend;
        [discriminate|].
      intros [= <-]. split; [done|]. right. split; [by eexists|]. right.
      exists m, e0. split_and!; [|done..].
      apply list_elem_of_further, list_elem_of_here.
    + intros [_ [[Hr Hne] | [_ [[? _] | (m' & e0 & Hin & Hsend & ->)]]]].
      * apply Hund in Hr as [msg ->]. by destruct (Hne msg).
      * discriminate.
      * apply elem_of_cons in Hin as [Hin|Hin]; [discriminate Hin|].
        apply list_elem_of_singleton in Hin. injection Hin as ->.
        by rewrite Hsend.
  - rewrite (post_receive_unmapped _ _ _ _ Hp Ht Hm).
    unfold outcome, sends, calls. simpl. split.
    + intros [= <-]. split; [done|]. right. split; [by eexists|]. by left.
    + intros [_ [[Hr Hne] | [_ [[_ ->] | (m' & e0 & Hin & _)]]]].
      * apply Hund in Hr as [msg ->]. by destruct (Hne msg).
      * done.
      * apply list_elem_of_singleton in Hin. discriminate Hin.
Qed.

Lemma hook_raises_witness :
  outcome (post_receive Sample.plain
             {| bot := Sample.offline; template := Sample.header |}
             Sample.opened)
  = Raise (delivery_error
             (OtherException "ConnectionError" "network unreachable")).
Proof.
  apply (hook_raises Sample.plain
           {| bot := Sample.offline; template := Sample.header |}
           Sample.opened).
  split; [reflexivity|]. right. split.
  - exists "[open] critical". apply binds_rendered. reflexivity.
  - right.
    exists {| chat_id := VInt (-1001);
              msg_text := "[open] critical";
              parse_mode := "Markdown";
              disable_notification := false;
              reply_markup := None |},
           (OtherException "ConnectionError" "network unreachable").
    split_and!; [|reflexivity..].
    apply list_elem_of_further, list_elem_of_here.
Defined.

(** Every [sendMessage] of a run carries the message of
    [post_receive_message]. *)
Lemma sends_message cfg self alert m :
  sends (post_receive cfg self alert) m →
  parse_mode m = "Markdown" ∧
  reply_markup m
  = if truthy_str (TELEGRAM_WEBHOOK_URL cfg) then
      Some {| inline_keyboard := [[
        {| btn_text := "ack"; callback_data := "/ack " +:+ id alert |};
        {| btn_text := "close"; callback_data := "/close " +:+ id alert |};
        {| btn_text := "blackout";
           callback_data := "/blackout " +:+ id alert |} ]] |}
    else None.
Proof.
  intros Hs. pose proof Hs as Hs'.
  apply sends_inv in Hs' as (t & d & Ht & Hm & _).
  assert (passes_filter cfg alert = true) as Hp.
  { apply (proj1 (notifies_passes cfg self alert)).
    apply sends_inv in Hs as (_ & _ & _ & _ & _ & _ & _ & Hrun).
    exists alert. rewrite Hrun. apply list_elem_of_here. }
  unfold sends in Hs. rewrite (post_receive_message _ _ _ _ _ Hp Ht Hm) in Hs.
  apply elem_of_cons in Hs as [Hs|Hs]; [discriminate Hs|].
  apply list_elem_of_singleton in Hs. by injection Hs as ->.
Qed.

(** X16.  Every message is sent in Markdown mode.  It carries the inline
    keyboard exactly when a non-empty webhook URL is configured, and the
    keyboard is one row of three buttons, ack, close and blackout, whose
    callback data is the command, a space and the id of the alert. *)
Theorem keyboard_follows_webhook cfg self alert m :
  sends (post_receive cfg self alert) m →
  parse_mode m = "Markdown" ∧
  (truthy_str (TELEGRAM_WEBHOOK_URL cfg) = false → reply_markup m = None) ∧
  (truthy_str (TELEGRAM_WEBHOOK_URL cfg) = true →
   ∃ ack close blackout,
     reply_markup m = Some {| inline_keyboard := [[ack; close; blackout]] |} ∧
     btn_text ack = "ack" ∧ callback_data ack = "/ack " +:+ id alert ∧
     btn_text close = "close" ∧
     callback_data close = "/close " +:+ id alert ∧
     btn_text blackout = "blackout" ∧
     callback_data blackout = "/blackout " +:+ id alert).
Proof.
  intros Hs. apply sends_message in Hs as [Hpm Hkb].
  split; [done|]. rewrite Hkb. split; intros ->; [done|].
  by eexists _, _, _.
Qed.

Lemma keyboard_follows_webhook_witness :
  parse_mode Sample.opened_message = "Markdown" ∧
  (truthy_str (TELEGRAM_WEBHOOK_URL Sample.watched) = false →
   reply_markup Sample.opened_message = None) ∧
  (truthy_str (TELEGRAM_WEBHOOK_URL Sample.watched) = true →
   ∃ ack close blackout,
     reply_markup Sample.opened_message
     = Some {| inline_keyboard := [[ack; close; blackout]] |} ∧
     btn_text ack = "ack" ∧
     callback_data ack = "/ack " +:+ id Sample.opened ∧
     btn_text close = "close" ∧
     callback_data close = "/close " +:+ id Sample.opened ∧
     btn_text blackout = "blackout" ∧
     callback_data blackout = "/blackout " +:+ id Sample.opened).
Proof.
  apply (keyboard_follows_webhook Sample.watched
           {| bot := Sample.up; template := Sample.header |}
           Sample.opened Sample.opened_message).
  apply list_elem_of_further, list_elem_of_here.
Defined.

(** X17.  The text of a message is what the template returned for this
    alert, unchanged, or the fallback sentence when the template raised
    [UndefinedError]. *)
Theorem text_is_rendered cfg self alert m :
  sends (post_receive cfg self alert) m →
  render (template self) alert = Returns (msg_text m) ∨
  ((∃ msg, render (template self) alert = Raises (UndefinedError msg)) ∧
   msg_text m = fallback_text).
Proof.
  intros Hs. apply sends_inv in Hs as (t & d & Ht & _ & _ & -> & _).
  destruct Ht as [t Hr | msg Hr]; [by left | right]. split; [by eexists | done].
Qed.

Lemma text_is_rendered_witness :
  render (template {| bot := Sample.up; template := Sample.header |})
    Sample.opened
  = Returns (msg_text Sample.opened_message) ∨
  ((∃ msg, render (template {| bot := Sample.up; template := Sample.header |})
             Sample.opened
           = Raises (UndefinedError msg)) ∧
   msg_text Sample.opened_message = fallback_text).
Proof.
  apply (text_is_rendered Sample.watched
           {| bot := Sample.up; template := Sample.header |}
           Sample.opened Sample.opened_message).
  apply list_elem_of_further, list_elem_of_here.
Defined.

(** X18.  Whether an alert is notified about depends on the alert and on
    the filter severities only: not on the bot, the template, the chat
    ids, the webhook URL or the sound severities. *)
Theorem filter_reads_only_the_filter cfg cfg' self self' alert :
  TELEGRAM_FILTER_NOTIFICATION_SEVERITY cfg
  = TELEGRAM_FILTER_NOTIFICATION_SEVERITY cfg' →
  notifies (post_receive cfg self alert)
  ↔ notifies (post_receive cfg' self' alert).
Proof.
  intros HF. rewrite !notifies_passes. unfold passes_filter. by rewrite HF.
Qed.

Lemma filter_reads_only_the_filter_witness :
  notifies (post_receive Sample.plain
              {| bot := Sample.up; template := Sample.header |}
              Sample.opened)
  ↔ notifies (post_receive Sample.unmapped
                {| bot := Sample.offline; template := Sample.broken |}
                Sample.opened).
Proof.
  apply (filter_reads_only_the_filter Sample.plain Sample.unmapped).
  reflexivity.
Defined.

(** X19.  Listing more severities in a non-empty filter list never
    suppresses an alert that was notified about before; order and
    repetitions in the list do not matter. *)
Theorem filter_list_monotone cfg cfg' self self' alert (l l' : list string) :
  TELEGRAM_FILTER_NOTIFICATION_SEVERITY cfg = SevList l →
  TELEGRAM_FILTER_NOTIFICATION_SEVERITY cfg' = SevList l' →
  l ≠ [] →
  l ⊆ l' →
  notifies (post_receive cfg self alert) →
  notifies (post_receive cfg' self' alert).
Proof.
  intros HF HF' Hl Hsub. rewrite !notifies_passes. unfold passes_filter.
  rewrite HF, HF'. simpl.
  assert (l' ≠ []) as Hl'.
  { destruct l as [|x l]; [done|]. intros ->.
    by apply (not_elem_of_nil x), Hsub, list_elem_of_here. }
  rewrite !(bool_decide_eq_false_2 (_ = [])) by done. simpl.
  assert (∀ x, bool_decide (x ∈ l) = true → bool_decide (x ∈ l') = true)
    as Hin.
  { intros x. rewrite !bool_decide_eq_true. apply Hsub. }
  destruct (repeat alert); [done|]. simpl.
  destruct (bool_decide (status alert = "closed")); simpl.
  - destruct (bool_decide (previous_severity alert = "indeterminate"));
      simpl; [done|]. apply Hin.
  - rewrite !orb_true_iff. intros [H|H]; [left|right]; by apply Hin.
Qed.

Lemma filter_list_monotone_witness :
  notifies (post_receive Sample.watched
              {| bot := Sample.up; template := Sample.header |}
              Sample.opened).
Proof.
  apply (filter_list_monotone
           {| TELEGRAM_CHAT_ID := VNone;
              TELEGRAM_WEBHOOK_URL := None;
              TELEGRAM_SOUND_NOTIFICATION_SEVERITY := SevNone;
              TELEGRAM_FILTER_NOTIFICATION_SEVERITY := SevList ["critical"];
              TELEGRAM_CHAT_ID_PER_CUSTOMER := None |}
           Sample.watched
           {| bot := Sample.offline; template := Sample.broken |}
           {| bot := Sample.up; template := Sample.header |}
           Sample.opened ["critical"] ["critical"; "major"]).
  - reflexivity.
  - reflexivity.
  - discriminate.
  - intros x Hx. apply list_elem_of_singleton in Hx as ->.
    apply list_elem_of_here.
  - exists Sample.opened. apply list_elem_of_here.
Defined.

(** X20.  A filter only ever removes notifications: an alert notified
    about under some filter is notified about when no filter is set. *)
Theorem filter_only_removes cfg cfg' self self' alert :
  truthy (TELEGRAM_FILTER_NOTIFICATION_SEVERITY cfg') = false →
  notifies (post_receive cfg self alert) →
  notifies (post_receive cfg' self' alert).
Proof.
  intros HF. rewrite !notifies_passes. unfold passes_filter. rewrite HF.
  simpl. intros H. apply andb_prop in H as [-> _]. reflexivity.
Qed.

Lemma filter_only_removes_witness :
  notifies (post_receive Sample.plain
              {| bot := Sample.up; template := Sample.header |}
              Sample.opened).
Proof.
  apply (filter_only_removes Sample.watched Sample.plain
           {| bot := Sample.up; template := Sample.header |}
           {| bot := Sample.up; template := Sample.header |} Sample.opened).
  - reflexivity.
  - exists Sample.opened. apply list_elem_of_here.
Defined.
